(** * PAI AeroNews: the ingestion pipeline and the Gemini usage limiter

    A shallow embedding of [scripts/fetch-rss.js], [scripts/analyst-mode.js]
    and [scripts/usage-limit.js], followed by the properties the
    specification states about them.

    Conventions of the embedding:
    - a JavaScript string is the list of its UTF-16 code units ([jsstring]);
    - a JavaScript number that the code only uses as an integer is a [Z];
    - the counter file and the network are explicit: functions that touch the
      disk live in the monad [Eff], replies of the network are arguments. *)

From Stdlib Require Import ZArith Lia Bool Ascii String Permutation Sorted.
From stdpp Require Import base list sorting gmap.

Set Warnings "-clear-no-such-hyp".

(** ** JavaScript strings and primitive operations *)

Module JS.

(** A string is its sequence of UTF-16 code units (0 .. 65535). *)
Definition jsstring := list Z.

(** An ASCII literal as a JavaScript string. *)
Definition lit (s : string) : jsstring :=
  map (fun a => Z.of_nat (nat_of_ascii a)) (list_ascii_of_string s).

(** [ToInt32]: wrap an integer into the signed 32-bit range. *)
Definition toInt32 (z : Z) : Z := ((z + 2 ^ 31) mod 2 ^ 32 - 2 ^ 31)%Z.

(** [a << n] on numbers: both the operand and the result are int32. *)
Definition shl (a n : Z) : Z := toInt32 (Z.shiftl (toInt32 a) n).

(** [a & b] on numbers. *)
Definition bitand (a b : Z) : Z := Z.land (toInt32 a) (toInt32 b).

(** One digit of [Number.prototype.toString(36)]: 0-9 then a-z. *)
Definition digit36 (d : Z) : Z := (if d <? 10 then 48 + d else 87 + d)%Z.

Fixpoint toString36_aux (fuel : nat) (n : Z) (acc : jsstring) : jsstring :=
  match fuel with
  | O => acc
  | S fuel' =>
      let acc' := digit36 (n mod 36) :: acc in
      if (n / 36 =? 0)%Z then acc' else toString36_aux fuel' (n / 36) acc'
  end.

(** [n.toString(36)] for an integer [n >= 0].  The fuel is the bit length of
    [n], which [toString36_value] shows to be enough. *)
Definition toString36 (n : Z) : jsstring :=
  toString36_aux (S (Z.to_nat (Z.log2 n))) n [].

(** The value of a base-36 digit string (the inverse reading). *)
Definition undigit36 (c : Z) : Z := (if c <? 58 then c - 48 else c - 87)%Z.
Definition parse36 (s : jsstring) : Z :=
  fold_left (fun acc c => (acc * 36 + undigit36 c)%Z) s 0%Z.

(** *** Character classes of the regular expressions *)

(** [\s], which is also the set [String.prototype.trim] strips. *)
Definition isSpace (c : Z) : bool :=
  ((9 <=? c) && (c <=? 13) || (c =? 32) || (c =? 160) || (c =? 5760)
   || (8192 <=? c) && (c <=? 8202) || (c =? 8232) || (c =? 8233)
   || (c =? 8239) || (c =? 8287) || (c =? 12288) || (c =? 65279))%Z.

Definition isDigit (c : Z) : bool := ((48 <=? c) && (c <=? 57))%Z.
Definition isUpper (c : Z) : bool := ((65 <=? c) && (c <=? 90))%Z.
Definition isLower (c : Z) : bool := ((97 <=? c) && (c <=? 122))%Z.
Definition isHexDigit (c : Z) : bool :=
  (isDigit c || (97 <=? c) && (c <=? 102) || (65 <=? c) && (c <=? 70))%Z.

(** *** Searching *)

Fixpoint startsWith (pat s : jsstring) : bool :=
  match pat, s with
  | [], _ => true
  | p :: pat', c :: s' => (p =? c)%Z && startsWith pat' s'
  | _ :: _, [] => false
  end.

(** [s.includes(pat)]. *)
Fixpoint includes (s pat : jsstring) : bool :=
  startsWith pat s ||
  match s with
  | [] => false
  | _ :: s' => includes s' pat
  end.

(** The longest prefix whose characters satisfy [p], and what follows it. *)
Fixpoint span (p : Z -> bool) (s : jsstring) : jsstring * jsstring :=
  match s with
  | c :: s' => if p c then let '(a, b) := span p s' in (c :: a, b) else ([], s)
  | [] => ([], [])
  end.

(** *** [String.prototype.replace] with a global pattern

    A [matcher] says whether the pattern matches at the very start of its
    argument, and then how many characters it consumes (at least one for
    every pattern of this program) and what replaces them.  [replaceAll]
    scans left to right, replaces each match and resumes after it; [skip]
    counts the characters of the current match still to be dropped. *)
Definition matcher := jsstring -> option (nat * jsstring).

Fixpoint replaceFrom (m : matcher) (skip : nat) (s : jsstring) : jsstring :=
  match s with
  | [] => []
  | c :: s' =>
      match skip with
      | S k => replaceFrom m k s'
      | O =>
          match m s with
          | Some (n, r) => r ++ replaceFrom m (Nat.pred n) s'
          | None => c :: replaceFrom m 0 s'
          end
      end
  end.

Definition replaceAll (m : matcher) (s : jsstring) : jsstring := replaceFrom m 0 s.

(** Does the pattern match anywhere in [s]? *)
Fixpoint matchesSomewhere (m : matcher) (s : jsstring) : bool :=
  match s with
  | [] => false
  | _ :: s' => bool_decide (is_Some (m s)) || matchesSomewhere m s'
  end.

(** A literal pattern such as [/&amp;/g]. *)
Definition literal (pat rep : jsstring) : matcher :=
  fun s => if startsWith pat s then Some (length pat, rep) else None.

(** [/\s+/g] replaced by one space. *)
Definition spaceRun : matcher :=
  fun s => match span isSpace s with
           | ([], _) => None
           | (w, _) => Some (length w, [32%Z])
           end.

(** [/<[^>]*>/g] replaced by nothing: from a [<] to the first [>] after it. *)
Fixpoint indexOfGt (s : jsstring) : option nat :=
  match s with
  | [] => None
  | c :: s' => if (c =? 62)%Z then Some O else S <$> indexOfGt s'
  end.

Definition htmlTag : matcher :=
  fun s => match s with
           | c :: s' =>
               if (c =? 60)%Z
               then (fun i => (S (S i), [])) <$> indexOfGt s'
               else None
           | [] => None
           end.

(** *** Numbers of character references *)

(** The Number nearest to a non-negative integer (round to nearest, ties to
    even, 53 bits of mantissa); [None] is Infinity. *)
Definition toNumber (n : Z) : option Z :=
  (if n <? 2 ^ 53 then Some n
   else
     let e := Z.log2 n - 52 in
     let q := Z.shiftr n e in
     let r := n mod 2 ^ e in
     let half := 2 ^ (e - 1) in
     let q' := if (half <? r) || ((r =? half) && Z.odd q) then q + 1 else q in
     let v := q' * 2 ^ e in
     if v <? 2 ^ 1024 then Some v else None)%Z.

(** [String.fromCharCode(n)]: [ToUint16] of the Number. *)
Definition fromCharCode (n : Z) : Z :=
  match toNumber n with
  | Some v => (v mod 65536)%Z
  | None => 0%Z
  end.

Definition decimalValue (ds : jsstring) : Z :=
  fold_left (fun acc c => (acc * 10 + (c - 48))%Z) ds 0%Z.

Definition hexDigitValue (c : Z) : Z :=
  (if isDigit c then c - 48 else if 97 <=? c then c - 87 else c - 55)%Z.

(** [parseInt(hex, 16)] on a non-empty run of hexadecimal digits, before the
    rounding to a Number. *)
Definition hexValue (ds : jsstring) : Z :=
  fold_left (fun acc c => (acc * 16 + hexDigitValue c)%Z) ds 0%Z.

(** [/&#(\d+);/g] with [(match, dec) => String.fromCharCode(dec)]. *)
Definition decimalEntity : matcher :=
  fun s => match s with
           | 38%Z :: 35%Z :: s' =>
               match span isDigit s' with
               | (d :: ds, 59%Z :: _) =>
                   Some (3 + length (d :: ds), [fromCharCode (decimalValue (d :: ds))])
               | _ => None
               end
           | _ => None
           end.

(** [/&#x([0-9a-fA-F]+);/g] with
    [(match, hex) => String.fromCharCode(parseInt(hex, 16))]. *)
Definition hexEntity : matcher :=
  fun s => match s with
           | 38%Z :: 35%Z :: 120%Z :: s' =>
               match span isHexDigit s' with
               | (d :: ds, 59%Z :: _) =>
                   Some (4 + length (d :: ds), [fromCharCode (hexValue (d :: ds))])
               | _ => None
               end
           | _ => None
           end.

(** *** [String.prototype.trim] and [substring] *)

Fixpoint trimStart (s : jsstring) : jsstring :=
  match s with
  | c :: s' => if isSpace c then trimStart s' else s
  | [] => []
  end.

Definition trim (s : jsstring) : jsstring := rev (trimStart (rev (trimStart s))).

(** [s.substring(0, n)] for [n >= 0]. *)
Definition substring0 (s : jsstring) (n : nat) : jsstring := take n s.

(** ASCII lower-casing, an instance of [toLowerCase] used to run examples. *)
Definition asciiLower (s : jsstring) : jsstring :=
  map (fun c => if isUpper c then (c + 32)%Z else c) s.

(** *** [Array.prototype.sort] and [slice]

    [sortWith cmp l] is [l.sort(cmp)]: the sort is stable, so an element
    stays in front of a later one unless the comparator puts it strictly
    after ([cmp x y > 0]). *)
Fixpoint insertSorted {A} (cmp : A -> A -> Z) (x : A) (l : list A) : list A :=
  match l with
  | [] => [x]
  | y :: l' => if (cmp x y <=? 0)%Z then x :: y :: l' else y :: insertSorted cmp x l'
  end.

Definition sortWith {A} (cmp : A -> A -> Z) (l : list A) : list A :=
  foldr (insertSorted cmp) [] l.

(** [l.slice(0, n)]: a negative [n] counts from the end. *)
Definition slice0 {A} (l : list A) (n : Z) : list A :=
  if (n <? 0)%Z
  then take (Z.to_nat (Z.max (Z.of_nat (length l) + n) 0)) l
  else take (Z.to_nat n) l.

(** *** Completion of a call: a value, or an exception with its message *)

Inductive outcome (A : Type) : Type :=
  | Returned (a : A)
  | Thrown (message : jsstring).
Arguments Returned {A} a.
Arguments Thrown {A} message.

(** Sequencing of completions, written [x ← c; k]: an exception skips [k]. *)
#[export] Instance outcome_ret : MRet outcome := fun A a => Returned a.

#[export] Instance outcome_bind : MBind outcome := fun A B k c =>
  match c with
  | Returned a => k a
  | Thrown e => Thrown e
  end.

(** [l.map(f)] for an [f] that may throw: the first exception ends the map. *)
Fixpoint mapOutcome {A B} (f : A -> outcome B) (l : list A) : outcome (list B) :=
  match l with
  | [] => Returned []
  | x :: l' =>
      y ← f x;
      ys ← mapOutcome f l';
      Returned (y :: ys)
  end.

(** [String(n)] for an integer [n >= 0], with the bit length as fuel. *)
Fixpoint toString10_aux (fuel : nat) (n : Z) (acc : jsstring) : jsstring :=
  match fuel with
  | O => acc
  | S fuel' =>
      let acc' := (48 + n mod 10)%Z :: acc in
      if (n / 10 =? 0)%Z then acc' else toString10_aux fuel' (n / 10) acc'
  end.

Definition toString10 (n : Z) : jsstring :=
  toString10_aux (S (Z.to_nat (Z.log2 n))) n [].

End JS.

(** ** The disk and the effect monad *)

Module Disk.
Import JS.

(** The object kept in [dist/usage-counters.json]:
    [{ date: "YYYY-MM-DD", geminiCallsToday: n }]. *)
Record counters := Counters { c_date : jsstring; c_geminiCallsToday : Z }.

(** What the counter file holds.  [Corrupt] stands for every content on which
    [JSON.parse] or the field access raises; [Stored c] for the text
    [saveCounters] writes for [c]. *)
Inductive file := Absent | Corrupt | Stored (c : counters).

(** A computation that may read and write the counter file and may throw. *)
Definition Eff (A : Type) : Type := file -> outcome A * file.

#[export] Instance eff_ret : MRet Eff := fun A a d => (Returned a, d).

#[export] Instance eff_throw : MThrow jsstring Eff :=
  fun A message d => (Thrown message, d).

(** Sequencing, written [x ← c; k] below: an exception of [c] skips [k]. *)
#[export] Instance eff_bind : MBind Eff := fun A B k c d =>
  match c d with
  | (Returned a, d') => k a d'
  | (Thrown e, d') => (Thrown e, d')
  end.

(** [try { body } catch (error) { handler }]. *)
Definition tryCatch {A} (body : Eff A) (handler : jsstring -> Eff A) : Eff A :=
  fun d => match body d with
           | (Returned a, d') => (Returned a, d')
           | (Thrown e, d') => handler e d'
           end.

(** An operation whose completion is already known (a reply of the network). *)
Definition await {A} (o : outcome A) : Eff A := fun d => (o, d).

(** [JSON.parse(fs.readFileSync(COUNTERS_PATH, 'utf-8'))]. *)
Definition readJson : Eff counters :=
  fun d => match d with
           | Absent => (Thrown (lit "ENOENT: no such file or directory"), d)
           | Corrupt => (Thrown (lit "SyntaxError: Unexpected token"), d)
           | Stored c => (Returned c, d)
           end.

(** [fs.writeFileSync(COUNTERS_PATH, JSON.stringify(counters, null, 2))]; the
    directory is created when missing, and the write is taken to succeed. *)
Definition writeJson (c : counters) : Eff unit := fun _ => (Returned tt, Stored c).

End Disk.

(** ** [scripts/usage-limit.js] *)

Module UsageLimit.
Import JS Disk.

(** [loadCounters()], lines 32-44.  [today] is the value of [utcToday()].  The
    [return data] inside the [try] is the [Some] branch. *)
Definition loadCounters (today : jsstring) : Eff counters :=
  found ← tryCatch
             (data ← readJson;
              if bool_decide (c_date data = today)
              then mret (Some data)
              else mret None)
             (fun _ => mret None);
  match found with
  | Some data => mret data
  | None => mret {| c_date := today; c_geminiCallsToday := 0 |}
  end.

(** [saveCounters(counters)], lines 49-55. *)
Definition saveCounters (c : counters) : Eff unit := writeJson c.

(** [canSpendGemini(callsNeeded = 1, cap)], lines 61-64; [None] is an omitted
    (undefined) argument. *)
Definition canSpendGemini (today : jsstring) (callsNeeded : option Z) (cap : Z)
  : Eff bool :=
  let callsNeeded := default 1%Z callsNeeded in
  counters ← loadCounters today;
  mret (c_geminiCallsToday counters + callsNeeded <=? cap)%Z.

(** [recordGeminiCalls(count = 1)], lines 70-75. *)
Definition recordGeminiCalls (today : jsstring) (count : option Z) : Eff Z :=
  let count := default 1%Z count in
  counters ← loadCounters today;
  let counters :=
    {| c_date := c_date counters;
       c_geminiCallsToday := (c_geminiCallsToday counters + count)%Z |} in
  saveCounters counters;;
  mret (c_geminiCallsToday counters).

(** [geminiCallsToday()], lines 80-82. *)
Definition geminiCallsToday (today : jsstring) : Eff Z :=
  counters ← loadCounters today;
  mret (c_geminiCallsToday counters).

(** [geminiCallsRemaining(cap)], lines 87-90. *)
Definition geminiCallsRemaining (today : jsstring) (cap : Z) : Eff Z :=
  used ← geminiCallsToday today;
  mret (Z.max 0 (cap - used)).

(** One read-only query of the limiter, with the UTC day on which it runs. *)
Inductive query :=
  | QCanSpend (today : jsstring) (callsNeeded : option Z) (cap : Z)
  | QRemaining (today : jsstring) (cap : Z).

Definition runQuery (q : query) : Eff unit :=
  match q with
  | QCanSpend today n cap => canSpendGemini today n cap;; mret tt
  | QRemaining today cap => geminiCallsRemaining today cap;; mret tt
  end.

Fixpoint runQueries (qs : list query) : Eff unit :=
  match qs with
  | [] => mret tt
  | q :: qs' => runQuery q;; runQueries qs'
  end.

(** *** The command line helper, lines 97-129 *)

(** [process.argv[2]], with the result of [parseInt(process.argv[3], 10)] for
    [simulate] ([None] is [NaN]); any other word prints the usage. *)
Inductive command :=
  | Status
  | Simulate (n : option Z)
  | Reset
  | Usage.

(** The helper run as a script; the result is the exit code, and what it
    prints is left out. *)
Definition cli (today : jsstring) (cmd : command) : Eff Z :=
  match cmd with
  | Status =>
      c ← loadCounters today;
      mret 0%Z
  | Simulate n =>
      match n with
      | None => mret 1%Z
      | Some n =>
          if (n <? 0)%Z then mret 1%Z
          else
            counters ← loadCounters today;
            let counters :=
              {| c_date := c_date counters; c_geminiCallsToday := n |} in
            saveCounters counters;;
            mret 0%Z
      end
  | Reset =>
      saveCounters {| c_date := today; c_geminiCallsToday := 0 |};;
      mret 0%Z
  | Usage => mret 0%Z
  end.

End UsageLimit.

(** ** [scripts/fetch-rss.js] *)

Module FetchRss.
Import JS Disk.

(** *** Articles *)

Record source := Source { name : jsstring; url : jsstring }.

(** An article object.  [publishedAt] is the instant of its ISO string in
    milliseconds; [takeaway = None] is [null]; [priority = None] is the
    missing property of an article that came from a feed. *)
Record article := Article {
  id : jsstring;
  headline : jsstring;
  blurb : jsstring;
  src : source;
  category : jsstring;
  publishedAt : Z;
  takeaway : option jsstring;
  keywords : list jsstring;
  priority : option jsstring
}.

Definition setTakeaway (a : article) (t : jsstring) : article :=
  {| id := id a; headline := headline a; blurb := blurb a; src := src a;
     category := category a; publishedAt := publishedAt a;
     takeaway := Some t; keywords := keywords a; priority := priority a |}.

(** [generateId(title, url)], lines 178-187. *)
Definition generateId (title url : jsstring) : jsstring :=
  let str := title ++ lit "-" ++ url in
  let hash :=
    fold_left
      (fun hash char =>
         let hash := (shl hash 5 - hash + char)%Z in
         bitand hash hash)
      str 0%Z in
  toString36 (Z.abs hash).

(** *** Text cleaning *)

(** [decodeHtmlEntities(text)], lines 192-214: sixteen global replacements,
    each applied to the result of the one before. *)
Definition decodeHtmlEntities (text : jsstring) : jsstring :=
  match text with
  | [] => []
  | _ =>
      let t := replaceAll decimalEntity text in
      let t := replaceAll hexEntity t in
      let t := replaceAll (literal (lit "&amp;") (lit "&")) t in
      let t := replaceAll (literal (lit "&lt;") (lit "<")) t in
      let t := replaceAll (literal (lit "&gt;") (lit ">")) t in
      let t := replaceAll (literal (lit "&quot;") [34%Z]) t in
      let t := replaceAll (literal (lit "&apos;") (lit "'")) t in
      let t := replaceAll (literal (lit "&#39;") (lit "'")) t in
      let t := replaceAll (literal (lit "&nbsp;") (lit " ")) t in
      let t := replaceAll (literal (lit "&mdash;") [8212%Z]) t in
      let t := replaceAll (literal (lit "&ndash;") [8211%Z]) t in
      let t := replaceAll (literal (lit "&hellip;") (lit "...")) t in
      let t := replaceAll (literal (lit "&lsquo;") [8216%Z]) t in
      let t := replaceAll (literal (lit "&rsquo;") [8217%Z]) t in
      let t := replaceAll (literal (lit "&ldquo;") [8220%Z]) t in
      replaceAll (literal (lit "&rdquo;") [8221%Z]) t
  end.

(** The patterns of [decodeHtmlEntities], in the order they are applied. *)
Definition entityPatterns : list matcher :=
  [ decimalEntity; hexEntity;
    literal (lit "&amp;") (lit "&"); literal (lit "&lt;") (lit "<");
    literal (lit "&gt;") (lit ">"); literal (lit "&quot;") [34%Z];
    literal (lit "&apos;") (lit "'"); literal (lit "&#39;") (lit "'");
    literal (lit "&nbsp;") (lit " "); literal (lit "&mdash;") [8212%Z];
    literal (lit "&ndash;") [8211%Z]; literal (lit "&hellip;") (lit "...");
    literal (lit "&lsquo;") [8216%Z]; literal (lit "&rsquo;") [8217%Z];
    literal (lit "&ldquo;") [8220%Z]; literal (lit "&rdquo;") [8221%Z] ].

(** A string holds a character-entity sequence when one of the patterns
    matches somewhere in it. *)
Definition hasEntity (s : jsstring) : bool :=
  existsb (fun m => matchesSomewhere m s) entityPatterns.

(** Does the whole of [t] match
    [\s+[-–—|]\s+[A-Z][A-Za-z\s]{2,20}] ?  No class overlaps the one after
    it, so each [\s+] is the whole run of spaces. *)
Definition isSeparator (c : Z) : bool :=
  ((c =? 45) || (c =? 8211) || (c =? 8212) || (c =? 124))%Z.

Definition isSourceSuffix (t : jsstring) : bool :=
  match span isSpace t with
  | (_ :: _, sep :: t1) =>
      isSeparator sep &&
      match span isSpace t1 with
      | (_ :: _, u :: t2) =>
          isUpper u
          && forallb (fun c => isUpper c || isLower c || isSpace c) t2
          && (2 <=? length t2)%nat && (length t2 <=? 20)%nat
      | _ => false
      end
  | _ => false
  end.

(** [s.replace(/\s+[-–—|]\s+[A-Z][A-Za-z\s]{2,20}$/, '')]: the pattern is
    anchored at the end, so the leftmost position from which the rest of the
    string matches is where the string is cut. *)
Fixpoint stripSourceSuffix (s : jsstring) : jsstring :=
  match s with
  | [] => []
  | c :: s' => if isSourceSuffix s then [] else c :: stripSourceSuffix s'
  end.

(** [cleanHeadline(title)], lines 219-239. *)
Definition cleanHeadline (title : jsstring) : jsstring :=
  match title with
  | [] => lit "Aviation News"
  | _ =>
      let cleaned := title in
      let cleaned := replaceAll htmlTag cleaned in
      let cleaned := decodeHtmlEntities cleaned in
      let cleaned := stripSourceSuffix cleaned in
      let cleaned := trim (replaceAll spaceRun cleaned) in
      cleaned
  end.

(** [cleanDescription(description)], lines 244-264. *)
Definition cleanDescription (description : jsstring) : jsstring :=
  match description with
  | [] => []
  | _ =>
      let cleaned := description in
      let cleaned := replaceAll htmlTag cleaned in
      let cleaned := decodeHtmlEntities cleaned in
      let cleaned := trim (replaceAll spaceRun cleaned) in
      let cleaned :=
        if (300 <? length cleaned)%nat
        then substring0 cleaned 297 ++ lit "..."
        else cleaned in
      cleaned
  end.

(** *** Feed items *)

(** A property of a parsed XML item: missing, a text, or an element object
    with an optional ['#text'] (attributes make the parser build an object). *)
Inductive xmlField :=
  | Missing
  | Text (s : jsstring)
  | Node (text : option jsstring).

(** Is the property truthy: present and not the empty string. *)
Definition truthyField (f : xmlField) : bool :=
  match f with
  | Missing | Text [] => false
  | _ => true
  end.

(** [a || b || ... ] over properties: the first truthy one. *)
Definition firstTruthy (fs : list xmlField) : xmlField :=
  default Missing (List.find truthyField fs).

(** Is an optional string truthy: present and not empty. *)
Definition truthyString (o : option jsstring) : bool :=
  match o with
  | Some (_ :: _) => true
  | _ => false
  end.

(** [o || d] for an optional string. *)
Definition orString (o : option jsstring) (d : jsstring) : jsstring :=
  match o with
  | Some (c :: s) => c :: s
  | _ => d
  end.

(** [item.link]: a text (RSS, RDF), an element with attributes, or a list of
    such elements (Atom). *)
Inductive linkField :=
  | NoLink
  | LinkText (s : jsstring)
  | LinkNode (href text : option jsstring)
  | LinkList (links : list (option jsstring * option jsstring)).

Record item := Item {
  title : xmlField;
  dc_title : xmlField;
  description : xmlField;
  summary : xmlField;
  content : xmlField;
  content_encoded : xmlField;
  link : linkField;
  pubDate : option jsstring;
  published : option jsstring;
  updated : option jsstring;
  dc_date : option jsstring
}.

Record feed := Feed { feed_name : jsstring; feed_category : jsstring; feed_url : jsstring }.

(** The fixed vocabulary of [extractKeywords], lines 273-281. *)
Definition keywordPatterns : list jsstring :=
  map lit
    [ "boeing"; "airbus"; "cessna"; "piper"; "cirrus"; "gulfstream"; "embraer";
      "faa"; "easa"; "ntsb"; "icao";
      "evtol"; "uam"; "drone"; "uas"; "aam";
      "electric"; "hybrid"; "sustainable"; "saf";
      "safety"; "crash"; "incident"; "accident";
      "airline"; "airport"; "pilot"; "atc";
      "nasa"; "spacex"; "space" ]%string.

(** *** Replies of the summarization service *)

(** A value built by [JSON.parse]; a number is kept as an integer, which is
    all its truthiness depends on, and an object lists its properties, each
    key once. *)
Unset Elimination Schemes.
Inductive json :=
  | JNull
  | JBool (b : bool)
  | JNum (n : Z)
  | JStr (s : jsstring)
  | JArr (elements : list json)
  | JObj (properties : list (jsstring * json)).
Set Elimination Schemes.

(** The index a property key denotes on an array or a string, if any. *)
Definition arrayIndex (k : jsstring) : option nat :=
  match k with
  | [] => None
  | [48%Z] => Some O
  | c :: _ =>
      if isDigit c && negb (c =? 48)%Z && forallb isDigit k
      then Some (Z.to_nat (decimalValue k))
      else None
  end.

(** [v[k]] for a value that is neither [null] nor [undefined], for the keys
    this program reads; [None] is [undefined]. *)
Definition getProperty (v : json) (k : jsstring) : option json :=
  match v with
  | JObj ps => snd <$> List.find (fun p => bool_decide (fst p = k)) ps
  | JArr l => i ← arrayIndex k; l !! i
  | JStr s => i ← arrayIndex k; c ← s !! i; Some (JStr [c])
  | _ => None
  end.

(** [v.k]: a [TypeError] on [null] and [undefined]. *)
Definition member (v : option json) (k : string) : outcome (option json) :=
  match v with
  | None | Some JNull => Thrown (lit "TypeError: Cannot read properties")
  | Some j => Returned (getProperty j (lit k))
  end.

(** [v?.k]. *)
Definition optMember (v : option json) (k : string) : option json :=
  match v with
  | None | Some JNull => None
  | Some j => getProperty j (lit k)
  end.

Definition truthy (v : option json) : bool :=
  match v with
  | None | Some JNull => false
  | Some (JBool b) => b
  | Some (JNum n) => negb (n =? 0)%Z
  | Some (JStr s) => negb (bool_decide (s = []))
  | Some (JArr _) | Some (JObj _) => true
  end.

(** [v.trim()]: only a string has the method. *)
Definition callTrim (v : option json) : outcome jsstring :=
  match v with
  | Some (JStr s) => Returned (trim s)
  | _ => Thrown (lit "TypeError: trim is not a function")
  end.

(** What [fetch] resolves to; [body_text] and [body_json] are the completions
    of [response.text()] and [response.json()]. *)
Record response := Response {
  ok : bool;
  status : Z;
  body_text : outcome jsstring;
  body_json : outcome json
}.

(** *** Manual entries of [manual.json] *)

Record manualEntry := ManualEntry {
  m_headline : jsstring;
  m_blurb : option jsstring;
  m_source : option jsstring;
  m_url : jsstring;
  m_date : option jsstring;
  m_category : option jsstring;
  m_priority : option jsstring;
  m_takeaway : option jsstring
}.

(** [x === "c"] and [x.includes("c")] against an ASCII literal. *)
Definition strictEq (x : jsstring) (c : string) : bool := bool_decide (x = lit c).
Definition includesLit (x : jsstring) (c : string) : bool := includes x (lit c).
Notation "x === c" := (strictEq x c%string) (at level 30, no associativity).

Section WithBuiltins.

(** [String.prototype.toLowerCase], whose Unicode case table is not part of
    the program; [Date.parse] on a date text ([None] is an invalid date); and
    the instant at which the script runs. *)
Variable toLowerCase : jsstring -> jsstring.
Variable parseDate : jsstring -> option Z.
Variable now : Z.

(** [extractKeywords(text)], lines 269-290. *)
Definition extractKeywords (text : jsstring) : list jsstring :=
  let lowerText := toLowerCase text in
  List.filter (fun keyword => includes lowerText keyword) keywordPatterns.

(** [normalizeArticle(item, feed)], lines 137-173.  [typeof link === 'object']
    also holds of an array, which has neither ['@_href'] nor ['#text']: the
    link of a list is the empty string and the [Array.isArray] branch after it
    is never entered.  [new Date(pubDate).toISOString()] throws on an invalid
    date. *)
Definition normalizeArticle (item : item) (feed : feed) : outcome article :=
  let title :=
    match firstTruthy [title item; dc_title item] with
    | Text s => s
    | Node t => orString t (lit "Untitled")
    | Missing => lit "Untitled"
    end in
  let description :=
    match firstTruthy [description item; summary item; content item;
                       content_encoded item] with
    | Text s => s
    | Node t => orString t []
    | Missing => []
    end in
  let link :=
    match link item with
    | NoLink => []
    | LinkText s => s
    | LinkNode href text => orString href (orString text [])
    | LinkList _ => []
    end in
  let instant :=
    match List.find truthyString
            [pubDate item; published item; updated item; dc_date item] with
    | Some (Some d) => parseDate d
    | _ => Some now
    end in
  match instant with
  | None => Thrown (lit "Invalid time value")
  | Some t =>
      Returned
        {| id := generateId title link;
           headline := cleanHeadline title;
           blurb := cleanDescription description;
           src := {| name := feed_name feed; url := link |};
           category := feed_category feed;
           publishedAt := t;
           takeaway := None;
           keywords := extractKeywords (title ++ lit " " ++ description);
           priority := None |}
  end.

(** *** The rule cascade *)

(** [createFallbackTakeaway(article)], lines 345-385. *)
Definition createFallbackTakeaway (article : article) : jsstring :=
  let text := toLowerCase (headline article ++ lit " " ++ blurb article) in
  let category := category article in
  if category === "safety" || includesLit text "safety"
     || includesLit text "crash" || includesLit text "incident" then
    lit "Safety implications warrant industry attention."
  else if category === "regulatory" || includesLit text "faa"
          || includesLit text "easa" || includesLit text "regulation" then
    lit "Regulatory changes may affect industry operations."
  else if category === "evtol" || includesLit text "evtol"
          || includesLit text "air taxi" || includesLit text "urban air" then
    lit "Urban air mobility advances toward commercial reality."
  else if category === "drones" || includesLit text "drone"
          || includesLit text "uas" || includesLit text "unmanned" then
    lit "Drone technology continues to reshape aviation operations."
  else if category === "electric" || includesLit text "electric"
          || includesLit text "hybrid" || includesLit text "sustainable" then
    lit "Sustainable aviation technology gains momentum."
  else if includesLit text "boeing" then
    lit "Boeing developments impact global aviation supply chain."
  else if includesLit text "airbus" then
    lit "Airbus activity reflects European aerospace trends."
  else if category === "aerospace" || includesLit text "nasa" || includesLit text "space" then
    lit "Aerospace developments expand industry horizons."
  else if category === "military" then
    lit "Military aviation advances influence broader industry."
  else if category === "commercial" || includesLit text "airline" || includesLit text "airport" then
    lit "Commercial aviation dynamics shape travel industry."
  else if category === "business-aviation" then
    lit "Business aviation sector shows evolving market trends."
  else
    lit "Industry developments to monitor closely.".

(** *** Takeaways *)

(** [CONFIG.googleAiApiKey], read from the environment. *)
Variable googleAiApiKey : option jsstring.

(** [generateTakeaway(article)], lines 295-340.  [reply] is the completion of
    the [fetch] call, consulted only when the call is made.  A [return]
    inside the [try] is the [Some] branch; the [catch] only logs. *)
Definition generateTakeaway (reply : outcome response) (article : article)
  : Eff jsstring :=
  if negb (truthyString googleAiApiKey) then
    mret (createFallbackTakeaway article)
  else
    answered ← tryCatch
      (response ← await reply;
       data ← await (body_json response);
       candidates ← await (member (Some data) "candidates");
       let text :=
         optMember (optMember (optMember (optMember (optMember
           candidates "0") "content") "parts") "0") "text" in
       if truthy text
       then (trimmed ← await (callTrim text); mret (Some trimmed))
       else mret None)
      (fun _ => mret None);
    match answered with
    | Some text => mret text
    | None => mret (createFallbackTakeaway article)
    end.

(** The loop of [generateHTML(articles, sources)], lines 474-479, which
    yields [processedArticles]; [replies i] is the completion of the [fetch]
    of the article at position [i].  The rendering of the page is left out. *)
Fixpoint generateTakeaways (replies : nat -> outcome response) (i : nat)
    (articles : list article) : Eff (list article) :=
  match articles with
  | [] => mret []
  | article :: rest =>
      takeaway ← generateTakeaway (replies i) article;
      processed ← generateTakeaways replies (S i) rest;
      mret (setTakeaway article takeaway :: processed)
  end.

Definition generateHTML (replies : nat -> outcome response)
    (articles : list article) : Eff (list article) :=
  generateTakeaways replies 0 articles.

(** *** Merging, lines 806-847 of [main] *)

(** One element of [formattedManualArticles], lines 806-819. *)
Definition formatManualArticle (entry : manualEntry) : outcome article :=
  let instant :=
    if truthyString (m_date entry)
    then parseDate (default [] (m_date entry))
    else Some now in
  match instant with
  | None => Thrown (lit "Invalid time value")
  | Some t =>
      Returned
        {| id := generateId (m_headline entry) (m_url entry);
           headline := m_headline entry;
           blurb := orString (m_blurb entry) [];
           src := {| name := orString (m_source entry) (lit "Performance Aircraft");
                     url := m_url entry |};
           category := orString (m_category entry) (lit "industry");
           publishedAt := t;
           takeaway :=
             if truthyString (m_takeaway entry) then m_takeaway entry else None;
           keywords :=
             extractKeywords
               (m_headline entry ++ lit " " ++ orString (m_blurb entry) []);
           priority := Some (orString (m_priority entry) (lit "normal")) |}
  end.

Fixpoint formatManualArticles (entries : list manualEntry)
  : outcome (list article) :=
  match entries with
  | [] => Returned []
  | entry :: rest =>
      match formatManualArticle entry with
      | Thrown e => Thrown e
      | Returned a =>
          match formatManualArticles rest with
          | Thrown e => Thrown e
          | Returned l => Returned (a :: l)
          end
      end
  end.

End WithBuiltins.

(** [a.priority === 'high']. *)
Definition isHigh (a : article) : Prop := priority a = Some (lit "high").
#[export] Instance isHigh_dec a : Decision (isHigh a) := _.

(** The comparator [(a, b) => new Date(b.publishedAt) - new Date(a.publishedAt)]. *)
Definition newestFirst (a b : article) : Z := (publishedAt b - publishedAt a)%Z.

(** One turn of the deduplication loop, lines 831-836, on the pair
    [(seenUrls, deduped)]. *)
Definition dedupStep (st : gset jsstring * list article) (a : article)
  : gset jsstring * list article :=
  let '(seenUrls, deduped) := st in
  if decide (url (src a) ∈ seenUrls)
  then (seenUrls, deduped)
  else ({[ url (src a) ]} ∪ seenUrls, deduped ++ [a]).

(** [sources.settings?.maxArticlesInTicker || 36]: a missing setting and a
    setting of 0 are both falsy. *)
Definition maxArticles (maxArticlesInTicker : option Z) : Z :=
  match maxArticlesInTicker with
  | None | Some 0%Z => 36%Z
  | Some m => m
  end.

(** Lines 822-847: from [allArticles] and [formattedManualArticles] to
    [finalArticles]. *)
Definition mergeArticles (allArticles formattedManualArticles : list article)
    (maxArticlesInTicker : option Z) : list article :=
  let highPriorityManual := filter isHigh formattedManualArticles in
  let normalManual := filter (fun a => ~ isHigh a) formattedManualArticles in
  let allArticles := sortWith newestFirst allArticles in
  let '(seenUrls, deduped) := fold_left dedupStep allArticles (∅, []) in
  let combinedArticles :=
    highPriorityManual ++ deduped
    ++ filter (fun a => url (src a) ∉ seenUrls) normalManual in
  slice0 combinedArticles (maxArticles maxArticlesInTicker).

(** [main()], lines 801-860, from the fetched feeds to the articles handed to
    [writeOutput]; an exception ends the run with a failure. *)
Definition main (toLowerCase : jsstring -> jsstring)
    (parseDate : jsstring -> option Z) (now : Z)
    (googleAiApiKey : option jsstring) (maxArticlesInTicker : option Z)
    (feedResults : list (list article)) (manualArticles : list manualEntry)
    (replies : nat -> outcome response) : Eff (list article) :=
  let allArticles := concat feedResults in
  formattedManualArticles ←
    await (formatManualArticles toLowerCase parseDate now manualArticles);
  let finalArticles :=
    mergeArticles allArticles formattedManualArticles maxArticlesInTicker in
  match finalArticles with
  | [] => mret []
  | _ => generateHTML toLowerCase googleAiApiKey replies finalArticles
  end.

(** *** [escapeHtml(text)], lines 416-424 *)

Definition escapeHtml (text : jsstring) : jsstring :=
  match text with
  | [] => []
  | _ =>
      let t := replaceAll (literal (lit "&") (lit "&amp;")) text in
      let t := replaceAll (literal (lit "<") (lit "&lt;")) t in
      let t := replaceAll (literal (lit ">") (lit "&gt;")) t in
      let t := replaceAll (literal [34%Z] (lit "&quot;")) t in
      replaceAll (literal (lit "'") (lit "&#39;")) t
  end.

(** *** Fetching the feeds *)

(** What the XML parser makes of repeated elements: one element is an
    object, several are an array. *)
Inductive oneOrMany :=
  | One (i : item)
  | Many (l : list item).

(** [Array.isArray(x) ? x : [x]]. *)
Definition toArray (x : oneOrMany) : list item :=
  match x with
  | One i => [i]
  | Many l => l
  end.

(** The three places [fetchFeed] looks for items in a parsed document:
    [rss.channel.item], [feed.entry] and [rdf.item]; [None] is a missing (or
    otherwise falsy) value. *)
Record parsedFeed := ParsedFeed {
  rss_channel_item : option oneOrMany;
  feed_entry : option oneOrMany;
  rdf_item : option oneOrMany
}.

(** What [fetch(feed.url)] resolves to; [feed_parsed] is the completion of
    [parser.parse(await response.text())]. *)
Record feedResponse := FeedResponse {
  feed_ok : bool;
  feed_status : Z;
  feed_statusText : jsstring;
  feed_parsed : outcome parsedFeed
}.

(** An entry of [sources.feeds]. *)
Record sourceFeed := SourceFeed { sf_feed : feed; sf_enabled : bool }.

Section Feeds.

Variable toLowerCase : jsstring -> jsstring.
Variable parseDate : jsstring -> option Z.
Variable now : Z.

(** The body of the [try] of [fetchFeed], lines 89-126. *)
Definition fetchFeedAttempt (feed : feed) (reply : outcome feedResponse)
  : outcome (list article) :=
  response ← reply;
  if negb (feed_ok response) then
    Thrown (lit "HTTP " ++ toString10 (feed_status response) ++ lit ": "
            ++ feed_statusText response)
  else
    parsed ← feed_parsed response;
    let items :=
      match rss_channel_item parsed with
      | Some x => toArray x
      | None =>
          match feed_entry parsed with
          | Some x => toArray x
          | None =>
              match rdf_item parsed with
              | Some x => toArray x
              | None => []
              end
          end
      end in
    mapOutcome (fun item => normalizeArticle toLowerCase parseDate now item feed)
      items.

(** [fetchFeed(feed)], lines 82-132: the [catch] logs and returns [[]]. *)
Definition fetchFeed (feed : feed) (reply : outcome feedResponse) : list article :=
  match fetchFeedAttempt feed reply with
  | Returned articles => articles
  | Thrown _ => []
  end.

(** Lines 787-802 of [main]: the enabled feeds are fetched, each with the
    reply its request gets, and the results are flattened in the order of
    [sources.feeds]. *)
Definition fetchAllFeeds (feeds : list (sourceFeed * outcome feedResponse))
  : list (list article) :=
  map (fun p => fetchFeed (sf_feed (fst p)) (snd p))
    (List.filter (fun p => sf_enabled (fst p)) feeds).

(** [main()] from the configured feeds on. *)
Definition mainFromSources (googleAiApiKey : option jsstring)
    (maxArticlesInTicker : option Z)
    (feeds : list (sourceFeed * outcome feedResponse))
    (manualArticles : list manualEntry)
    (replies : nat -> outcome response) : Eff (list article) :=
  main toLowerCase parseDate now googleAiApiKey maxArticlesInTicker
    (fetchAllFeeds feeds) manualArticles replies.

End Feeds.

End FetchRss.

(** ** [scripts/analyst-mode.js] *)

Module AnalystMode.
Import JS Disk UsageLimit FetchRss.

Section WithEnvironment.

(** [process.env.GOOGLE_AI_API_KEY] and the value of [utcToday()]. *)
Variable apiKey : option jsstring.
Variable today : jsstring.

(** [extractGeminiText(data)], lines 978-998: it reads its argument only, and
    may throw (a [null] body, a [null] part); [None] is [null]. *)
Variable extractGeminiText : json -> outcome (option jsstring).

(** [generateAnalystBrief(article, config)], lines 1003-1077.  The flag
    [counted] is false until [recordGeminiCalls(1)] has returned and true
    afterwards, so the [catch] block is written twice: the outer handler is
    the block with [counted] false, the inner one the block with [counted]
    true.  The result [None] is [null]. *)
Definition generateAnalystBrief (reply : outcome response) (article : article)
  : Eff (option jsstring) :=
  if negb (truthyString apiKey) then mret None
  else
    tryCatch
      (response ← await reply;
       recordGeminiCalls today (Some 1%Z);;
       tryCatch
         (if negb (ok response) then
            tryCatch (raw ← await (body_text response); mret tt)
                     (fun _ => mret tt);;
            mret None
          else
            data ← await (body_json response);
            text ← await (extractGeminiText data);
            if truthyString text then mret text else mret None)
         (fun _ => mret None))
      (fun _ => recordGeminiCalls today (Some 1%Z);; mret None).

(** *** Selection of the articles, lines 953-972 *)

(** One turn of the [filter] of [deduplicateByUrl(articles)] on the pair
    [(seen, kept)]; an article without a url is dropped. *)
Definition dedupByUrlStep (st : gset jsstring * list article) (a : article)
  : gset jsstring * list article :=
  let '(seen, kept) := st in
  let url := url (src a) in
  if bool_decide (url = []) || bool_decide (url ∈ seen)
  then (seen, kept)
  else ({[ url ]} ∪ seen, kept ++ [a]).

Definition deduplicateByUrl (articles : list article) : list article :=
  snd (fold_left dedupByUrlStep articles (∅, [])).

(** The daily cap [ANALYST_CAP] and [String.prototype.toLowerCase]. *)
Variable cap : Z.
Variable toLowerCase : jsstring -> jsstring.

(** [filterByKeywords(articles, keywords)], lines 966-972. *)
Definition filterByKeywords (articles : list article) (keywords : list jsstring)
  : list article :=
  let lowerKeywords := map toLowerCase keywords in
  List.filter
    (fun a =>
       let text := toLowerCase (headline a ++ lit " " ++ blurb a) in
       existsb (fun kw => includes text kw) lowerKeywords)
    articles.

(** *** The briefs, lines 1251-1275 of [main] *)

(** The [for] loop: [replies i] is the completion of the request for the
    article at position [i]; an article the loop does not reach keeps no
    [analystBrief] ([None], as for a [null] brief).  The flag is
    [capReached]. *)
Fixpoint briefLoop (replies : nat -> outcome response) (i : nat)
    (articles : list article) : Eff (list (article * option jsstring) * bool) :=
  match articles with
  | [] => mret ([], false)
  | a :: rest =>
      allowed ← canSpendGemini today (Some 1%Z) cap;
      if negb allowed then
        mret (map (fun a => (a, None)) (a :: rest), true)
      else
        brief ← generateAnalystBrief (replies i) a;
        done ← briefLoop replies (S i) rest;
        mret ((a, brief) :: fst done, snd done)
  end.

(** Step 6 of [main]. *)
Definition generateBriefs (replies : nat -> outcome response)
    (capped : list article) : Eff (list (article * option jsstring) * bool) :=
  if negb (truthyString apiKey) then
    mret (map (fun a => (a, None)) capped, false)
  else
    allowed ← canSpendGemini today (Some 1%Z) cap;
    if negb allowed then
      remaining ← geminiCallsRemaining today cap;
      mret (map (fun a => (a, None)) capped, true)
    else
      remaining ← geminiCallsRemaining today cap;
      briefLoop replies 0 capped.

(** The [analyst] mode of [sources.json]. *)
Record analystConfig := AnalystConfig {
  cfg_enabled : bool;
  cfg_dailyHourUTC : option Z;
  cfg_keywords : option (list jsstring);
  cfg_maxArticles : option Z
}.

(** How a run ends: [process.exit(0)] before any brief, or with the capped
    articles and the flag. *)
Inductive analystRun :=
  | Exited
  | Briefed (articles : list (article * option jsstring)) (capReached : bool).

(** [main()], lines 1207-1279, up to the posting of the digest.  [config] is
    the result of [loadAnalystConfig()], [newsArticles] the [articles] of
    [loadNewsData()] ([None] when either is missing). *)
Definition main (config : option analystConfig) (currentHourUTC : Z)
    (newsArticles : option (list article))
    (replies : nat -> outcome response) : Eff analystRun :=
  match config with
  | None => mret Exited
  | Some config =>
      if negb (cfg_enabled config) then mret Exited
      else if negb (currentHourUTC =? default 12%Z (cfg_dailyHourUTC config))%Z
      then mret Exited
      else
        match newsArticles with
        | None | Some [] => mret Exited
        | Some articles =>
            let deduped := deduplicateByUrl articles in
            let filtered :=
              filterByKeywords deduped (default [] (cfg_keywords config)) in
            match filtered with
            | [] => mret Exited
            | _ =>
                let filtered := sortWith newestFirst filtered in
                let capped :=
                  slice0 filtered
                    (match cfg_maxArticles config with
                     | None | Some 0%Z => 10%Z
                     | Some m => m
                     end) in
                done ← generateBriefs replies capped;
                mret (Briefed (fst done) (snd done))
            end
        end
  end.

End WithEnvironment.

End AnalystMode.

(** * The specification's vocabulary

    Definitions that word a property the way the specification does, and the
    sample inputs of the examples.  The program's own definitions are above. *)

Import JS Disk UsageLimit FetchRss.

(** Today's count as the specification words it: the stored count when the
    stored date is today's, and zero for a stale, missing or corrupt file. *)
Definition todaysCount (today : jsstring) (d : file) : Z :=
  match d with
  | Stored c => if bool_decide (c_date c = today) then c_geminiCallsToday c else 0%Z
  | _ => 0%Z
  end.

(** The text of a reply as the generator reads it: the value found at
    [candidates[0].content.parts[0].text] of the parsed body. *)
Definition textAtPath (data : json) : option json :=
  optMember (optMember (optMember (optMember (optMember (optMember
    (Some data) "candidates") "0") "content") "parts") "0") "text".

(** The usable text of a reply: a string at that path of a body that parses.
    A call that rejects (transport error, timeout), a body that is not JSON
    and a body of another shape have none. *)
Definition replyText (reply : outcome response) : option jsstring :=
  match reply with
  | Returned r =>
      match body_json r with
      | Returned data =>
          match textAtPath data with
          | Some (JStr s) => Some s
          | _ => None
          end
      | Thrown _ => None
      end
  | Thrown _ => None
  end.

Ltac run_eff :=
  unfold mbind, eff_bind, mret, eff_ret, tryCatch, await; simpl.

(** A manual entry that sets its own takeaway, and nothing else optional. *)
Definition entryWithTakeaway : manualEntry :=
  {| m_headline := lit "Hangar open day";
     m_blurb := None; m_source := None;
     m_url := lit "https://paiconsulting.com/open-day";
     m_date := None; m_category := None; m_priority := None;
     m_takeaway := Some (lit "Bring your logbook.") |}.

(** A rule of the cascade: the categories and the words of the lower-cased
    headline and blurb that select it, and the sentence it yields. *)
Record rule := Rule {
  categories : list string;
  words : list string;
  sentence : string
}.

(** The rules in the order of the specification, each with the categories
    and words the program tests for it. *)
Definition cascade : list rule :=
  [ Rule ["safety"] ["safety"; "crash"; "incident"]
      "Safety implications warrant industry attention.";
    Rule ["regulatory"] ["faa"; "easa"; "regulation"]
      "Regulatory changes may affect industry operations.";
    Rule ["evtol"] ["evtol"; "air taxi"; "urban air"]
      "Urban air mobility advances toward commercial reality.";
    Rule ["drones"] ["drone"; "uas"; "unmanned"]
      "Drone technology continues to reshape aviation operations.";
    Rule ["electric"] ["electric"; "hybrid"; "sustainable"]
      "Sustainable aviation technology gains momentum.";
    Rule [] ["boeing"]
      "Boeing developments impact global aviation supply chain.";
    Rule [] ["airbus"]
      "Airbus activity reflects European aerospace trends.";
    Rule ["aerospace"] ["nasa"; "space"]
      "Aerospace developments expand industry horizons.";
    Rule ["military"] []
      "Military aviation advances influence broader industry.";
    Rule ["commercial"] ["airline"; "airport"]
      "Commercial aviation dynamics shape travel industry.";
    Rule ["business-aviation"] []
      "Business aviation sector shows evolving market trends." ]%string.

Definition genericSentence : jsstring := lit "Industry developments to monitor closely.".
Definition safetySentence : jsstring := lit "Safety implications warrant industry attention.".

(** The text the rules are matched against. *)
Definition cascadeText (lower : jsstring -> jsstring) (a : article) : jsstring :=
  lower (headline a ++ lit " " ++ blurb a).

Definition ruleMatches (lower : jsstring -> jsstring) (a : article) (r : rule) : bool :=
  existsb (fun c => strictEq (category a) c) (categories r)
  || existsb (fun w => includesLit (cascadeText lower a) w) (words r).

(** The hash as the specification words it: each character is added to
    [h << 5 - h], that is [31 * h], and the sum is folded to 32 bits. *)
Definition rollingHash32 (s : jsstring) : Z :=
  fold_left (fun h c => toInt32 (31 * h + c)) s 0%Z.

Definition parse36_step (acc c : Z) : Z := (acc * 36 + undigit36 c)%Z.

(** The length test of [cleanDescription], on the text it is applied to. *)
Definition limitLength (cleaned : jsstring) : jsstring :=
  if (300 <? length cleaned)%nat
  then substring0 cleaned 297 ++ lit "..."
  else cleaned.

(** A feed item whose title is markup only. *)
Definition markupOnlyItem : item :=
  {| title := Text (lit "<b></b>"); dc_title := Missing;
     description := Text (lit "Engine maker posts results.");
     summary := Missing; content := Missing; content_encoded := Missing;
     link := LinkText (lit "https://example.com/a");
     pubDate := None; published := None; updated := None; dc_date := None |}.

Definition urlOf (a : article) : jsstring := url (src a).

(** Newest first: each article is at least as recent as those after it. *)
Definition newerOrSame (a b : article) : Prop := (publishedAt b <= publishedAt a)%Z.

(** Deduplication by url as the specification words it: the first occurrence
    wins, later articles with its url are dropped. *)
Fixpoint firstByUrl (l : list article) : list article :=
  match l with
  | [] => []
  | a :: l' => a :: filter (fun b => urlOf b <> urlOf a) (firstByUrl l')
  end.

(** The articles in the order of the specification, before truncation. *)
Definition combinedSpec (rss manual : list article) : list article :=
  filter isHigh manual
  ++ firstByUrl (sortWith newestFirst rss)
  ++ filter (fun a => urlOf a ∉ urlOf <$> rss) (filter (fun a => ~ isHigh a) manual).

(** Sample articles: one from a feed, one from [manual.json]. *)
Definition feedArticle (u : string) (t : Z) : article :=
  {| id := generateId (lit u) (lit u); headline := lit u; blurb := [];
     src := {| name := lit "Feed"; url := lit u |}; category := lit "industry";
     publishedAt := t; takeaway := None; keywords := []; priority := None |}.

Definition manualArticle (u p : string) : article :=
  {| id := generateId (lit u) (lit u); headline := lit u; blurb := [];
     src := {| name := lit "Performance Aircraft"; url := lit u |};
     category := lit "industry"; publishedAt := 0; takeaway := None;
     keywords := []; priority := Some (lit p) |}.

(** ** Vocabulary of the further properties *)


(** A request for a feed that does not end in a parsed document: it is
    rejected (network error, timeout), answered with a status that is not
    [ok], or its body cannot be read or parsed. *)
Definition feedFails (reply : outcome feedResponse) : Prop :=
  match reply with
  | Thrown _ => True
  | Returned r => feed_ok r = false \/ exists e, feed_parsed r = Thrown e
  end.



(** Samples: a date parser that knows one date, a feed, an item with a
    given title and date text, and a reply that parses to given items. *)
Definition sampleParseDate (s : jsstring) : option Z :=
  if bool_decide (s = lit "2026-11-01T08:00:00Z") then Some 1761984000000%Z
  else None.

Definition sampleFeed : feed :=
  {| feed_name := lit "AVweb"; feed_category := lit "general-aviation";
     feed_url := lit "https://www.avweb.com/feed/" |}.

Definition sampleItem (t d : string) : item :=
  {| title := Text (lit t); dc_title := Missing;
     description := Text (lit "Details follow."); summary := Missing;
     content := Missing; content_encoded := Missing;
     link := LinkText (lit "https://example.com/" ++ lit t);
     pubDate := Some (lit d); published := None; updated := None;
     dc_date := None |}.

Definition rssReply (items : oneOrMany) : outcome feedResponse :=
  Returned {| feed_ok := true; feed_status := 200; feed_statusText := lit "OK";
              feed_parsed := Returned {| rss_channel_item := Some items;
                                         feed_entry := None;
                                         rdf_item := None |} |}.

(** White space in normal form: the only white-space character is the
    space, no two spaces are adjacent, and none begins or ends the text. *)
Definition tidy (s : jsstring) : Prop :=
  Forall (fun c => isSpace c = true -> c = 32%Z) s
  /\ (forall l1 c d l2,
        s = l1 ++ c :: d :: l2 -> isSpace c = true -> isSpace d = true -> False)
  /\ (forall c, head s = Some c -> isSpace c = false)
  /\ (forall c, last s = Some c -> isSpace c = false).

(** The first two parts of [tidy], as a test. *)
Fixpoint singleSpaced (s : jsstring) : bool :=
  match s with
  | [] => true
  | c :: s' =>
      (if isSpace c
       then (c =? 32)%Z && match s' with
                           | d :: _ => negb (isSpace d)
                           | [] => true
                           end
       else true)
      && singleSpaced s'
  end.

(** What [escapeHtml] makes of one character. *)
Definition escapeChar (c : Z) : jsstring :=
  if (c =? 38)%Z then lit "&amp;"
  else if (c =? 60)%Z then lit "&lt;"
  else if (c =? 62)%Z then lit "&gt;"
  else if (c =? 34)%Z then lit "&quot;"
  else if (c =? 39)%Z then lit "&#39;"
  else [c].

(** The piece of an escaped text that stands for the character [c] once the
    references of the characters in [decoded] have been decoded. *)
Definition pieceOf (decoded : list Z) (c : Z) : jsstring :=
  if bool_decide (c ∈ decoded) then [c] else escapeChar c.


(** * Properties *)

(** ** The usage limiter *)

Lemma loadCounters_run today d :
  loadCounters today d =
    (Returned
       (match d with
        | Stored c => if bool_decide (c_date c = today) then c
                      else Counters today 0
        | _ => Counters today 0
        end), d).
Proof.
  destruct d as [| |c]; try reflexivity.
  unfold loadCounters, mbind, eff_bind, tryCatch; simpl.
  destruct (bool_decide (c_date c = today)); reflexivity.
Qed.

Lemma loadCounters_count today d :
  exists c, loadCounters today d = (Returned c, d)
            /\ c_geminiCallsToday c = todaysCount today d /\ c_date c = today.
Proof.
  rewrite loadCounters_run.
  destruct d as [| |c]; simpl; eauto.
  case_bool_decide; simpl; eauto.
Qed.

Lemma canSpendGemini_run today n cap d :
  canSpendGemini today n cap d =
    (Returned (todaysCount today d + default 1%Z n <=? cap)%Z, d).
Proof.
  destruct (loadCounters_count today d) as (c & Hc & Hn & _).
  unfold canSpendGemini, mbind, eff_bind. rewrite Hc. simpl. by rewrite Hn.
Qed.

Lemma geminiCallsToday_run today d :
  geminiCallsToday today d = (Returned (todaysCount today d), d).
Proof.
  destruct (loadCounters_count today d) as (c & Hc & Hn & _).
  unfold geminiCallsToday, mbind, eff_bind. rewrite Hc. simpl. by rewrite Hn.
Qed.

Lemma geminiCallsRemaining_run today cap d :
  geminiCallsRemaining today cap d =
    (Returned (Z.max 0 (cap - todaysCount today d)), d).
Proof.
  unfold geminiCallsRemaining, mbind, eff_bind.
  by rewrite geminiCallsToday_run.
Qed.

Lemma recordGeminiCalls_run today count d :
  recordGeminiCalls today count d =
    (Returned (todaysCount today d + default 1%Z count)%Z,
     Stored (Counters today (todaysCount today d + default 1%Z count))).
Proof.
  destruct (loadCounters_count today d) as (c & Hc & Hn & Hd).
  unfold recordGeminiCalls, mbind, eff_bind. rewrite Hc. simpl.
  by rewrite Hn, Hd.
Qed.

(** C3.  [canSpendGemini(callsNeeded, cap)] returns, and returns true exactly
    when today's count plus [callsNeeded] is at most [cap], today's count being
    taken after the day-rollover reset; an omitted [callsNeeded] is 1.  With
    cap 5 and a count of 4 for today, one more call fits and two do not; after
    [recordGeminiCalls(1)] the count is 5 and no call fits.  A counter dated
    another day counts as 0 in the check. *)
Theorem canSpendGemini_iff_count_fits :
  (forall today d callsNeeded cap,
      exists b, fst (canSpendGemini today (Some callsNeeded) cap d) = Returned b
                /\ (b = true <-> (todaysCount today d + callsNeeded <= cap)%Z))
  /\ (forall today d cap,
        canSpendGemini today None cap d = canSpendGemini today (Some 1%Z) cap d)
  /\ (forall today,
        let d4 := Stored (Counters today 4) in
        fst (canSpendGemini today (Some 1%Z) 5 d4) = Returned true
        /\ fst (canSpendGemini today (Some 2%Z) 5 d4) = Returned false
        /\ recordGeminiCalls today (Some 1%Z) d4
           = (Returned 5%Z, Stored (Counters today 5))
        /\ fst (canSpendGemini today (Some 1%Z) 5
                  (snd (recordGeminiCalls today (Some 1%Z) d4)))
           = Returned false)
  /\ (forall today c callsNeeded cap,
        c_date c <> today ->
        todaysCount today (Stored c) = 0%Z
        /\ fst (canSpendGemini today (Some callsNeeded) cap (Stored c))
           = Returned (callsNeeded <=? cap)%Z).
Proof.
  split; [|split; [|split]].
  - intros today d n cap. rewrite canSpendGemini_run. simpl.
    eexists; split; [reflexivity|]. apply Z.leb_le.
  - reflexivity.
  - intros today d4. subst d4.
    rewrite !recordGeminiCalls_run, !canSpendGemini_run; simpl.
    rewrite !bool_decide_eq_true_2 by done. done.
  - intros today c n cap Hc. rewrite canSpendGemini_run. simpl.
    rewrite bool_decide_eq_false_2 by done. done.
Qed.

(** A counter of 5 dated 1 November, checked on 2 November against a cap of
    5: the count is taken as 0 and a call fits. *)
Lemma canSpendGemini_iff_count_fits_witness :
  todaysCount (lit "2026-11-02") (Stored (Counters (lit "2026-11-01") 5)) = 0%Z
  /\ fst (canSpendGemini (lit "2026-11-02") (Some 1%Z) 5
            (Stored (Counters (lit "2026-11-01") 5)))
     = Returned true.
Proof.
  apply (proj2 (proj2 (proj2 canSpendGemini_iff_count_fits))
           (lit "2026-11-02") (Counters (lit "2026-11-01") 5) 1%Z 5%Z).
  vm_compute. discriminate.
Defined.

(** C10.  [canSpendGemini] and [geminiCallsRemaining] only read: whatever
    sequence of them runs, on whatever days, the counter file afterwards is
    the file before.  A reset they see on a stale file is therefore not
    written; the next [recordGeminiCalls] writes today's date with the count
    restarted. *)
Theorem queries_leave_file_unchanged :
  forall qs d,
    runQueries qs d = (Returned tt, d)
    /\ forall today count,
         snd (recordGeminiCalls today count (snd (runQueries qs d)))
         = Stored (Counters today (todaysCount today d + default 1%Z count)).
Proof.
  intros qs d.
  assert (Hrun : runQueries qs d = (Returned tt, d)).
  { induction qs as [|q qs IH]; [reflexivity|].
    simpl. unfold mbind, eff_bind at 1.
    assert (Hq : runQuery q d = (Returned tt, d)).
    { destruct q; unfold runQuery, mbind, eff_bind;
        [rewrite canSpendGemini_run | rewrite geminiCallsRemaining_run];
        reflexivity. }
    by rewrite Hq. }
  split; [exact Hrun|].
  intros today count. by rewrite Hrun, recordGeminiCalls_run.
Qed.

(** ** Takeaways *)

Lemma generateTakeaway_run lower key reply a d :
  generateTakeaway lower key reply a d =
    (Returned
       (if truthyString key then
          match replyText reply with
          | Some (c :: s) => trim (c :: s)
          | _ => createFallbackTakeaway lower a
          end
        else createFallbackTakeaway lower a), d).
Proof.
  unfold generateTakeaway.
  destruct (truthyString key); simpl; [|reflexivity].
  run_eff. destruct reply as [r|e]; simpl; [|reflexivity].
  destruct (body_json r) as [data|e]; simpl; [|reflexivity].
  unfold textAtPath.
  destruct data; simpl; try reflexivity;
    match goal with
    | |- context [truthy ?t] => destruct t as [[| | |[|c s]| |]|] eqn:Ht
    end; simpl; try reflexivity.
  all: try (match goal with |- context [if ?b then _ else _] => destruct b end;
            reflexivity).
Qed.


(** The sibling path: a brief that is attempted records one call, whether the
    request rejects, answers with an HTTP error, or its body cannot be used. *)
Lemma generateAnalystBrief_records_once key today extract reply a d :
  truthyString key = true ->
  exists brief,
    AnalystMode.generateAnalystBrief key today extract reply a d
    = (Returned brief, Stored (Counters today (todaysCount today d + 1))).
Proof.
  intros Hkey. unfold AnalystMode.generateAnalystBrief. rewrite Hkey. simpl.
  unfold tryCatch at 1. unfold mbind, eff_bind at 1.
  destruct reply as [r|e]; unfold await at 1.
  - unfold mbind, eff_bind at 1. rewrite recordGeminiCalls_run. simpl.
    destruct (ok r); run_eff.
    + destruct (body_json r) as [data|e]; simpl; eauto.
      destruct (extract data) as [[t|]|e]; simpl; eauto.
      destruct t; simpl; eauto.
    + destruct (body_text r); simpl; eauto.
  - unfold mbind, eff_bind at 1. rewrite recordGeminiCalls_run. simpl. eauto.
Qed.

(** C1.  The public pipeline's generator makes its call without recording it:
    whatever the reply (a usable answer, an HTTP error body, a rejected
    request), [generateTakeaway] returns with the counter file as it found
    it, so today's count is the same after the call as before.  The brief
    generator of the analyst mode does record each attempt once
    ([generateAnalystBrief_records_once]). *)
Theorem generateTakeaway_records_nothing :
  forall lower key reply a d today,
    snd (generateTakeaway lower key reply a d) = d
    /\ geminiCallsToday today (snd (generateTakeaway lower key reply a d))
       = geminiCallsToday today d.
Proof.
  intros. rewrite generateTakeaway_run. simpl. split; reflexivity.
Qed.

(** C2.  The takeaway an entry of [manual.json] sets is carried into its
    article and then replaced: the loop of [generateHTML] assigns the
    generator's result to every article.  With no API key the entry
    [entryWithTakeaway] comes out with the generic sentence of the rule
    cascade. *)
Theorem preset_takeaway_is_overwritten :
  (exists a,
      formatManualArticle asciiLower (fun _ => None) 0 entryWithTakeaway = Returned a
      /\ takeaway a = Some (lit "Bring your logbook."))
  /\ (exists a,
        fst (main asciiLower (fun _ => None) 0 None None [] [entryWithTakeaway]
               (fun _ => Thrown []) Absent) = Returned [a]
        /\ takeaway a = Some (lit "Industry developments to monitor closely.")
        /\ takeaway a <> m_takeaway entryWithTakeaway).
Proof.
  split; eexists; (split; [vm_compute; reflexivity|]);
    [|split]; vm_compute; congruence.
Qed.

(** C9.  [generateTakeaway] always returns and never throws.  When the API key
    is set and the request rejects (transport error, timeout), or its body is
    not JSON, or the body has no text where the answer is read, or that text
    is empty, the result is the takeaway of the rule cascade; so it is when
    no key is configured. *)
Theorem generateTakeaway_falls_back :
  forall lower key reply a d,
    (exists t, generateTakeaway lower key reply a d = (Returned t, d))
    /\ (replyText reply = None \/ replyText reply = Some [] ->
        generateTakeaway lower key reply a d
        = (Returned (createFallbackTakeaway lower a), d))
    /\ (truthyString key = false ->
        generateTakeaway lower key reply a d
        = (Returned (createFallbackTakeaway lower a), d)).
Proof.
  intros. rewrite generateTakeaway_run.
  split; [eauto|split].
  - intros [-> | ->]; destruct (truthyString key); reflexivity.
  - intros ->. reflexivity.
Qed.

(** A rejected request, a body that is not JSON, an error body and an empty
    text all end in the safety sentence for an article about a crash. *)
Lemma generateTakeaway_falls_back_witness :
  let a := {| id := []; headline := lit "Crash near airport"; blurb := [];
              src := {| name := []; url := [] |}; category := lit "industry";
              publishedAt := 0; takeaway := None; keywords := [];
              priority := None |} in
  let answer j := Returned {| ok := true; status := 200; body_text := Returned [];
                             body_json := j |} in
  let shape t :=
    JObj [(lit "candidates",
           JArr [JObj [(lit "content",
                        JObj [(lit "parts", JArr [JObj [(lit "text", t)]])])]])] in
  Forall (fun reply =>
            generateTakeaway asciiLower (Some (lit "key")) reply a Absent
            = (Returned (lit "Safety implications warrant industry attention."),
               Absent))
    [ Thrown (lit "fetch failed");
      answer (Thrown (lit "Unexpected end of JSON input"));
      answer (Returned (JObj [(lit "error", JObj [])]));
      answer (Returned JNull);
      answer (Returned (shape (JStr [])));
      answer (Returned (shape (JNum 7))) ].
Proof.
  repeat (apply List.Forall_cons;
          [ match goal with
            | |- generateTakeaway ?l ?k ?r ?a ?d = _ =>
                exact (proj1 (proj2 (generateTakeaway_falls_back l k r a d))
                         ltac:(vm_compute; auto))
            end | ]).
  apply List.Forall_nil.
Defined.

(** ** The rule cascade *)

(** C8.  The cascade returns the sentence of the first rule, in the order of
    the specification, that the article matches, and the generic sentence
    when it matches none.  So an article of category "safety", or whose
    lower-cased headline and blurb hold "safety", "crash" or "incident", gets
    the safety sentence whatever else it matches. *)
Theorem createFallbackTakeaway_first_match :
  forall lower a,
    createFallbackTakeaway lower a
    = match List.find (ruleMatches lower a) cascade with
      | Some r => lit (sentence r)
      | None => genericSentence
      end
    /\ (category a = lit "safety"
        \/ includes (cascadeText lower a) (lit "safety") = true
        \/ includes (cascadeText lower a) (lit "crash") = true
        \/ includes (cascadeText lower a) (lit "incident") = true ->
        createFallbackTakeaway lower a = safetySentence)
    /\ ((forall r, r ∈ cascade -> ruleMatches lower a r = false) ->
        createFallbackTakeaway lower a = genericSentence).
Proof.
  intros lower a.
  assert (Hfind : createFallbackTakeaway lower a
                  = match List.find (ruleMatches lower a) cascade with
                    | Some r => lit (sentence r)
                    | None => genericSentence
                    end).
  { unfold createFallbackTakeaway, cascade, ruleMatches, cascadeText,
      genericSentence.
    cbn [List.find existsb categories words sentence].
    rewrite ?orb_false_r, ?orb_assoc.
    repeat match goal with
           | |- context [if ?b then _ else _] => destruct b; try reflexivity
           end. }
  split; [exact Hfind|split].
  - intros H. rewrite Hfind. unfold cascade.
    cbn [List.find].
    assert (Hm : ruleMatches lower a
                   (Rule ["safety"] ["safety"; "crash"; "incident"]
                      "Safety implications warrant industry attention.")%string
                 = true).
    { unfold ruleMatches, includesLit, strictEq. cbn [existsb categories words].
      destruct H as [H|[H|[H|H]]]; rewrite ?H, ?bool_decide_eq_true_2 by done;
        rewrite ?orb_true_r; reflexivity. }
    rewrite Hm. reflexivity.
  - intros H. rewrite Hfind.
    destruct (List.find (ruleMatches lower a) cascade) as [r|] eqn:Hr;
      [|reflexivity].
    apply find_some in Hr as [Hin Hm].
    rewrite H in Hm; [discriminate|]. by apply list_elem_of_In.
Qed.

(** An article of category "safety" about something else, and one that no
    rule matches. *)
Lemma createFallbackTakeaway_first_match_witness :
  let mk (h c : string) :=
                {| id := []; headline := lit h; blurb := [];
                   src := {| name := []; url := [] |}; category := lit c;
                   publishedAt := 0; takeaway := None; keywords := [];
                   priority := None |} in
  createFallbackTakeaway asciiLower (mk "Boeing and FAA agree" "safety")%string
  = safetySentence
  /\ createFallbackTakeaway asciiLower (mk "Hangar open day" "industry")%string
     = genericSentence.
Proof.
  split.
  - apply (proj1 (proj2 (createFallbackTakeaway_first_match asciiLower _))).
    left. reflexivity.
  - apply (proj2 (proj2 (createFallbackTakeaway_first_match asciiLower _))).
    apply Forall_forall. repeat constructor.
Defined.

(** ** Article ids *)

Lemma toInt32_mod z : (toInt32 z mod 2 ^ 32 = z mod 2 ^ 32)%Z.
Proof.
  unfold toInt32.
  rewrite Zminus_mod, Z.mod_mod by lia.
  rewrite <- Zminus_mod. f_equal. lia.
Qed.

Lemma toInt32_congr a b :
  (a mod 2 ^ 32 = b mod 2 ^ 32)%Z -> toInt32 a = toInt32 b.
Proof.
  intros H. unfold toInt32.
  rewrite (Zplus_mod a), (Zplus_mod b), H. reflexivity.
Qed.

Lemma toInt32_range z : (- 2 ^ 31 <= toInt32 z <= 2 ^ 31 - 1)%Z.
Proof.
  unfold toInt32.
  pose proof (Z.mod_pos_bound (z + 2 ^ 31) (2 ^ 32) ltac:(lia)). lia.
Qed.

Lemma hash_step h c :
  bitand (shl h 5 - h + c) (shl h 5 - h + c) = toInt32 (31 * h + c).
Proof.
  unfold bitand. rewrite Z.land_diag. apply toInt32_congr.
  unfold shl. rewrite Z.shiftl_mul_pow2 by lia.
  rewrite Zplus_mod, Zminus_mod, toInt32_mod.
  rewrite Zmult_mod, toInt32_mod, <- Zmult_mod.
  rewrite <- Zminus_mod, <- Zplus_mod. f_equal. lia.
Qed.

Lemma rollingHash32_range s :
  (- 2 ^ 31 <= rollingHash32 s <= 2 ^ 31 - 1)%Z.
Proof.
  unfold rollingHash32.
  destruct s as [|c s] using rev_ind; [simpl; lia|].
  rewrite fold_left_app. simpl. apply toInt32_range.
Qed.

Lemma undigit36_digit36 d : (0 <= d < 36)%Z -> undigit36 (digit36 d) = d.
Proof.
  intros H. unfold undigit36, digit36.
  destruct (d <? 10)%Z eqn:Hd.
  - apply Z.ltb_lt in Hd. rewrite (proj2 (Z.ltb_lt _ _)) by lia. lia.
  - apply Z.ltb_ge in Hd. rewrite (proj2 (Z.ltb_ge _ _)) by lia. lia.
Qed.

Lemma digit36_class d :
  (0 <= d < 36)%Z -> isDigit (digit36 d) || isLower (digit36 d) = true.
Proof.
  intros H. unfold digit36, isDigit, isLower.
  destruct (d <? 10)%Z eqn:Hd; [apply Z.ltb_lt in Hd | apply Z.ltb_ge in Hd].
  - apply orb_true_iff; left. apply andb_true_iff; split; apply Z.leb_le; lia.
  - apply orb_true_iff; right. apply andb_true_iff; split; apply Z.leb_le; lia.
Qed.

(** The fuel of [toString36] is enough: reading the digits gives the number
    back. *)
Lemma toString36_aux_value fuel : forall n acc,
  (0 <= n < 2 ^ Z.of_nat fuel)%Z ->
  fold_left parse36_step (toString36_aux fuel n acc) 0%Z
  = fold_left parse36_step acc n.
Proof.
  induction fuel as [|fuel IH]; intros n acc Hn.
  - simpl in *. replace n with 0%Z by lia. reflexivity.
  - cbn [toString36_aux].
    pose proof (Z.mod_pos_bound n 36 ltac:(lia)) as Hm.
    pose proof (Z.div_mod n 36 ltac:(lia)) as Hdm.
    destruct (n / 36 =? 0)%Z eqn:Hq.
    + apply Z.eqb_eq in Hq. simpl. unfold parse36_step at 2.
      rewrite undigit36_digit36 by lia. f_equal. lia.
    + apply Z.eqb_neq in Hq. rewrite IH.
      * simpl. unfold parse36_step at 2.
        rewrite undigit36_digit36 by lia. f_equal. lia.
      * rewrite Nat2Z.inj_succ, Z.pow_succ_r in Hn by lia.
        split; [apply Z.div_pos; lia|].
        apply Z.div_lt_upper_bound; lia.
Qed.

Lemma toString36_value n : (0 <= n)%Z -> parse36 (toString36 n) = n.
Proof.
  intros Hn. unfold parse36, toString36.
  change (fun acc c => (acc * 36 + undigit36 c)%Z) with parse36_step.
  rewrite toString36_aux_value; [reflexivity|].
  split; [lia|].
  rewrite Nat2Z.inj_succ, Z2Nat.id by apply Z.log2_nonneg.
  destruct (Z.eq_dec n 0%Z) as [->|]; [reflexivity|].
  apply Z.log2_spec. lia.
Qed.

Lemma toString36_aux_digits fuel : forall n acc,
  (0 <= n)%Z ->
  Forall (fun c => isDigit c || isLower c = true) acc ->
  Forall (fun c => isDigit c || isLower c = true) (toString36_aux fuel n acc).
Proof.
  induction fuel as [|fuel IH]; intros n acc Hn Hacc; [exact Hacc|].
  cbn [toString36_aux].
  assert (Forall (fun c => isDigit c || isLower c = true)
            (digit36 (n mod 36) :: acc)).
  { constructor; [|exact Hacc]. apply digit36_class.
    apply Z.mod_pos_bound. lia. }
  destruct (n / 36 =? 0)%Z; [assumption|].
  apply IH; [apply Z.div_pos; lia | assumption].
Qed.

Lemma toString36_aux_nonempty fuel n acc :
  toString36_aux (S fuel) n acc <> [].
Proof.
  revert n acc. induction fuel as [|fuel IH]; intros n acc.
  - cbn. destruct (n / 36 =? 0)%Z; discriminate.
  - cbn [toString36_aux]. destruct (n / 36 =? 0)%Z; [discriminate|].
    apply IH.
Qed.

Lemma hash_loop s : forall h0,
  fold_left (fun hash char =>
               let hash := (shl hash 5 - hash + char)%Z in bitand hash hash)
    s h0
  = fold_left (fun h c => toInt32 (31 * h + c)) s h0.
Proof.
  induction s as [|c s IH]; intros h0; [reflexivity|].
  simpl. rewrite hash_step. apply IH.
Qed.

(** C6.  The id of [(title, link)] is the base-36 rendering of the absolute
    value of the 32-bit rolling hash of [title + "-" + link]: the hash is a
    signed 32-bit integer, the id is a non-empty string of the digits 0-9 and
    a-z without a sign, and it reads back as that absolute value.  Equal
    pairs get equal ids. *)
Theorem generateId_is_rolling_hash :
  forall title link,
    let h := rollingHash32 (title ++ lit "-" ++ link) in
    generateId title link = toString36 (Z.abs h)
    /\ (- 2 ^ 31 <= h <= 2 ^ 31 - 1)%Z
    /\ parse36 (generateId title link) = Z.abs h
    /\ generateId title link <> []
    /\ Forall (fun c => isDigit c || isLower c = true) (generateId title link)
    /\ (forall title' link',
          title' = title -> link' = link ->
          generateId title' link' = generateId title link).
Proof.
  intros title link h.
  assert (Hid : generateId title link = toString36 (Z.abs h)).
  { unfold generateId. rewrite hash_loop. reflexivity. }
  rewrite Hid.
  split; [reflexivity|].
  split; [apply rollingHash32_range|].
  split; [apply toString36_value; lia|].
  split; [apply toString36_aux_nonempty|].
  split; [apply toString36_aux_digits; [lia | constructor]|].
  intros title' link' -> ->. exact Hid.
Qed.

(** The id of [("a", "b")] is "212u", the rendering of 94710, from either
    side. *)
Lemma generateId_is_rolling_hash_witness :
  generateId (lit "a" ++ []) (lit "b") = generateId (lit "a") (lit "b")
  /\ generateId (lit "a") (lit "b") = lit "212u"
  /\ rollingHash32 (lit "a-b") = 94710%Z.
Proof.
  split; [|split].
  - exact (proj2 (proj2 (proj2 (proj2 (proj2
             (generateId_is_rolling_hash (lit "a") (lit "b"))))))
             (lit "a" ++ []) (lit "b") eq_refl eq_refl).
  - vm_compute. reflexivity.
  - vm_compute. reflexivity.
Defined.

(** ** Text cleaning *)

Lemma replaceAll_no_match m s :
  matchesSomewhere m s = false -> replaceAll m s = s.
Proof.
  unfold replaceAll. induction s as [|c s IH]; [reflexivity|].
  cbn [matchesSomewhere replaceFrom]. intros H.
  apply orb_false_iff in H as [Hm Hs].
  apply bool_decide_eq_false in Hm.
  destruct (m (c :: s)) as [[n r]|]; [destruct Hm; eauto|].
  by rewrite IH.
Qed.

(** C7.  A string in which no character-entity pattern matches is returned
    unchanged by [decodeHtmlEntities], and "&amp;amp;" decodes to "&amp;":
    the pass for [&amp;] does not look again at what it has produced. *)
Theorem decodeHtmlEntities_clean_unchanged :
  (forall s, hasEntity s = false -> decodeHtmlEntities s = s)
  /\ decodeHtmlEntities (lit "&amp;amp;") = lit "&amp;".
Proof.
  split; [|vm_compute; reflexivity].
  intros s H. unfold hasEntity, entityPatterns in H.
  cbn [existsb] in H.
  repeat match type of H with
         | (_ || _) = false => apply orb_false_iff in H as [?Hm H]
         end.
  unfold decodeHtmlEntities. destruct s as [|c s]; [reflexivity|].
  cbv zeta.
  repeat match goal with
         | Hm : matchesSomewhere ?m _ = false |- _ =>
             rewrite (replaceAll_no_match m _ Hm); clear Hm
         end.
  reflexivity.
Qed.

(** A headline with an ampersand and a hash sign but no entity. *)
Lemma decodeHtmlEntities_clean_unchanged_witness :
  decodeHtmlEntities (lit "AT&T orders 10 jets; flight #12 & more")
  = lit "AT&T orders 10 jets; flight #12 & more".
Proof.
  apply (proj1 decodeHtmlEntities_clean_unchanged).
  vm_compute. reflexivity.
Defined.

Lemma cleanDescription_limit description :
  description <> [] ->
  cleanDescription description
  = limitLength
      (trim (replaceAll spaceRun
               (decodeHtmlEntities (replaceAll htmlTag description)))).
Proof. destruct description; [done|reflexivity]. Qed.

(** The half of C5 about the blurb: it never exceeds 300 characters, and a
    cleaned description longer than that is cut to its first 297 characters
    followed by three dots. *)
Lemma cleanDescription_length description :
  length (cleanDescription description) <= 300
  /\ forall cleaned,
       300 < length cleaned ->
       limitLength cleaned = take 297 cleaned ++ lit "..."
       /\ length (limitLength cleaned) = 300.
Proof.
  split.
  - destruct description as [|c s]; [simpl; lia|].
    rewrite cleanDescription_limit by done. unfold limitLength.
    match goal with |- context [(300 <? ?n)%nat] =>
      destruct (Nat.ltb_spec 300 n) end; [|lia].
    unfold substring0. rewrite length_app, length_take.
    change (length (lit "...")) with 3. lia.
  - intros cleaned H. unfold limitLength.
    rewrite (proj2 (Nat.ltb_lt _ _) H). split; [reflexivity|].
    unfold substring0. rewrite length_app, length_take.
    change (length (lit "...")) with 3. lia.
Qed.

(** The cleaning steps on sample titles: tags and entities go, a trailing
    source name goes, a hyphenated model number and a one-letter tail stay. *)
Example cleanHeadline_samples :
  cleanHeadline (lit "<b>Boeing</b> 737-800 &amp; MAX   update | Reuters News")
  = lit "Boeing 737-800 & MAX update"
  /\ cleanHeadline (lit "F-35 - A") = lit "F-35 - A"
  /\ cleanHeadline (lit "Runway closed - crews respond - AVweb")
     = lit "Runway closed - crews respond"
  /\ cleanHeadline [] = lit "Aviation News".
Proof. repeat split; vm_compute; reflexivity. Qed.

Example cleanDescription_samples :
  cleanDescription (lit "<p>Hello   <a href='x'>world</a> &lt;3 </p>")
  = lit "Hello world <3"
  /\ cleanDescription (replicate 301 97%Z) = replicate 297 97%Z ++ lit "..."
  /\ cleanDescription (replicate 300 97%Z) = replicate 300 97%Z.
Proof. repeat split; vm_compute; reflexivity. Qed.


(** An item without a title gets the placeholder as its headline. *)
Lemma normalizeArticle_placeholder lower parseDate now item feed a :
  title item = Missing -> dc_title item = Missing ->
  normalizeArticle lower parseDate now item feed = Returned a ->
  headline a = lit "Untitled".
Proof.
  intros Ht Hdc. unfold normalizeArticle. rewrite Ht, Hdc.
  destruct (match List.find truthyString _ with
            | Some (Some d) => parseDate d
            | _ => Some now
            end); [|discriminate].
  intros [= <-]. vm_compute. reflexivity.
Qed.

(** The passes follow one another, so a reference that an earlier pass
    uncovers is decoded by a later one. *)
Example decodeHtmlEntities_later_pass :
  decodeHtmlEntities (lit "&amp;lt;b&amp;gt; &#38;quot;") = lit "<b> " ++ [34%Z]
  /\ decodeHtmlEntities (lit "&#65;&#x42;&hellip;") = lit "AB...".
Proof. split; vm_compute; reflexivity. Qed.

(** C5.  The placeholder is used for a title that is absent or empty before
    cleaning; a title that is only markup passes that test and is cleaned to
    the empty headline.  The blurb of that item, as of any, is within the
    limit ([cleanDescription_length]). *)
Theorem normalizeArticle_headline_can_be_empty :
  forall lower parseDate now feed,
    exists a,
      normalizeArticle lower parseDate now markupOnlyItem feed = Returned a
      /\ headline a = []
      /\ length (blurb a) <= 300.
Proof.
  intros. eexists. split; [reflexivity|]. split; [reflexivity|].
  apply cleanDescription_length.
Qed.

(** ** Merging *)

Section SortFacts.

Lemma insertSorted_perm (x : article) l :
  insertSorted newestFirst x l ≡ₚ x :: l.
Proof.
  induction l as [|y l IH]; [reflexivity|].
  simpl. destruct (newestFirst x y <=? 0)%Z; [reflexivity|].
  rewrite IH. apply Permutation_swap.
Qed.

Lemma sortWith_perm (l : list article) : sortWith newestFirst l ≡ₚ l.
Proof.
  induction l as [|x l IH]; [reflexivity|].
  simpl. rewrite insertSorted_perm. by rewrite IH.
Qed.

Lemma insertSorted_sorted x l :
  StronglySorted newerOrSame l ->
  StronglySorted newerOrSame (insertSorted newestFirst x l).
Proof.
  induction l as [|y l IH]; intros Hl; simpl.
  - repeat constructor.
  - apply StronglySorted_cons in Hl as [Hy Hl].
    destruct (Z.leb_spec (newestFirst x y) 0) as [Hxy|Hxy];
      unfold newestFirst in Hxy.
    + apply StronglySorted_cons. split.
      * constructor; [unfold newerOrSame; lia|].
        eapply Forall_impl; [exact Hy|].
        unfold newerOrSame. intros; lia.
      * apply StronglySorted_cons. by split.
    + apply StronglySorted_cons. split; [|by apply IH].
      rewrite insertSorted_perm. constructor; [unfold newerOrSame; lia|done].
Qed.

Lemma sortWith_sorted l : StronglySorted newerOrSame (sortWith newestFirst l).
Proof.
  induction l as [|x l IH]; simpl; [constructor|].
  by apply insertSorted_sorted.
Qed.

(** Stability: articles of one instant keep their order. *)
Lemma insertSorted_stable t x l :
  filter (fun a => publishedAt a = t) (insertSorted newestFirst x l)
  = filter (fun a => publishedAt a = t) (x :: l).
Proof.
  induction l as [|y l IH]; [reflexivity|].
  simpl. destruct (Z.leb_spec (newestFirst x y) 0) as [Hxy|Hxy]; [reflexivity|].
  unfold newestFirst in Hxy.
  rewrite (filter_cons _ y), IH, !(filter_cons _ x), (filter_cons _ y).
  destruct (decide (publishedAt x = t)), (decide (publishedAt y = t));
    try reflexivity.
  lia.
Qed.

Lemma sortWith_stable t l :
  filter (fun a => publishedAt a = t) (sortWith newestFirst l)
  = filter (fun a => publishedAt a = t) l.
Proof.
  induction l as [|x l IH]; [reflexivity|].
  simpl. rewrite insertSorted_stable, !(filter_cons _ x), IH. reflexivity.
Qed.

End SortFacts.

Section DedupFacts.

(** The loop, started with any set of urls already seen. *)
Lemma dedup_loop l : forall (seen : gset jsstring) acc,
  fold_left dedupStep l (seen, acc)
  = (seen ∪ list_to_set (urlOf <$> l),
     acc ++ filter (fun a => urlOf a ∉ seen) (firstByUrl l)).
Proof.
  induction l as [|x l IH]; intros seen acc.
  - simpl. f_equal; [set_solver | by rewrite app_nil_r].
  - cbn [fold_left dedupStep firstByUrl]. fold (urlOf x).
    destruct (decide (urlOf x ∈ seen)) as [Hin|Hout]; rewrite IH.
    + f_equal; [set_solver|]. f_equal.
      rewrite filter_cons_False by (intros H; by apply H).
      rewrite list_filter_filter_l; [reflexivity|].
      intros b Hb Heq. apply Hb. by rewrite Heq.
    + f_equal; [set_solver|].
      rewrite filter_cons_True by done.
      rewrite <- app_assoc. simpl. do 2 f_equal.
      rewrite list_filter_filter. apply list_filter_iff.
      intros b. set_solver.
Qed.

Lemma firstByUrl_sublist l : firstByUrl l `sublist_of` l.
Proof.
  induction l as [|x l IH]; simpl; [constructor|].
  apply sublist_skip. etrans; [apply sublist_filter|exact IH].
Qed.

Lemma firstByUrl_NoDup l : NoDup (urlOf <$> firstByUrl l).
Proof.
  induction l as [|x l IH]; simpl; [constructor|].
  apply NoDup_cons. split.
  - intros (b & Heq & Hb)%list_elem_of_fmap.
    apply list_elem_of_filter in Hb as [Hb _]. by apply Hb.
  - eapply sublist_NoDup; [exact IH|].
    apply fmap_sublist, sublist_filter.
Qed.

(** A kept article is the first of the list with its url. *)
Lemma firstByUrl_first l a :
  a ∈ firstByUrl l ->
  exists l1 l2, l = l1 ++ a :: l2 /\ urlOf a ∉ urlOf <$> l1.
Proof.
  induction l as [|x l IH]; simpl; [by intros ?%elem_of_nil|].
  intros [->|Ha]%elem_of_cons.
  - exists [], l. split; [reflexivity|]. apply not_elem_of_nil.
  - apply list_elem_of_filter in Ha as [Hne Ha].
    destruct (IH Ha) as (l1 & l2 & -> & Hl1).
    exists (x :: l1), l2. split; [reflexivity|].
    rewrite fmap_cons. intros [?|?]%elem_of_cons; [done|by apply Hl1].
Qed.

(** Every url of the list is still there. *)
Lemma firstByUrl_urls l u :
  u ∈ urlOf <$> firstByUrl l <-> u ∈ urlOf <$> l.
Proof.
  split.
  - intros (b & -> & Hb)%list_elem_of_fmap.
    apply list_elem_of_fmap_2.
    eapply elem_of_sublist; [exact Hb | apply firstByUrl_sublist].
  - induction l as [|x l IH]; [done|].
    cbn [firstByUrl]. rewrite !fmap_cons.
    intros Hu. destruct (decide (u = urlOf x)) as [->|Hne]; [left|].
    right. apply elem_of_cons in Hu as [?|Hu]; [done|].
    apply IH in Hu as (b & -> & Hb)%list_elem_of_fmap.
    apply list_elem_of_fmap_2, list_elem_of_filter. by split.
Qed.

End DedupFacts.

Lemma slice0_take {A} (l : list A) n :
  (0 <= n)%Z -> slice0 l n = take (Z.to_nat n) l.
Proof. intros H. unfold slice0. by rewrite (proj2 (Z.ltb_ge _ _) H). Qed.

Lemma filter_all {A} (P : A -> Prop) `{!forall x, Decision (P x)} (l : list A) :
  (forall x, P x) -> filter P l = l.
Proof.
  intros HP. induction l as [|x l IH]; [reflexivity|].
  by rewrite filter_cons_True, IH.
Qed.

Lemma mergeArticles_combined rss manual setting :
  mergeArticles rss manual setting
  = slice0 (combinedSpec rss manual) (maxArticles setting).
Proof.
  unfold mergeArticles, combinedSpec. rewrite dedup_loop.
  f_equal. f_equal. f_equal.
  - rewrite app_nil_l. apply filter_all. set_solver.
  - apply list_filter_iff. intros a. fold (urlOf a).
    rewrite not_elem_of_union, elem_of_list_to_set.
    rewrite (sortWith_perm rss). set_solver.
Qed.

(** C4.  The output of the merger is the high-priority manual articles in
    their order, then the feed articles sorted newest first (a stable sort)
    with only the first article of each url kept, then the other manual
    articles whose url no feed article has; this list is cut to its first
    [maxArticlesInTicker] articles, 36 when the setting is missing.  A cut
    removes articles from the end only, so the high-priority articles all
    stay when there are no more of them than the maximum. *)
Theorem mergeArticles_order :
  forall rss manual setting,
    let high := filter isHigh manual in
    let sorted := sortWith newestFirst rss in
    (sorted ≡ₚ rss
     /\ StronglySorted newerOrSame sorted
     /\ forall t, filter (fun a => publishedAt a = t) sorted
                  = filter (fun a => publishedAt a = t) rss)
    /\ (NoDup (urlOf <$> firstByUrl sorted)
        /\ (forall u, u ∈ urlOf <$> firstByUrl sorted <-> u ∈ urlOf <$> rss)
        /\ forall a, a ∈ firstByUrl sorted ->
             exists l1 l2, sorted = l1 ++ a :: l2 /\ urlOf a ∉ urlOf <$> l1)
    /\ mergeArticles rss manual setting
       = slice0 (high ++ firstByUrl sorted
                 ++ filter (fun a => urlOf a ∉ urlOf <$> rss)
                      (filter (fun a => ~ isHigh a) manual))
           (maxArticles setting)
    /\ (setting = None ->
        mergeArticles rss manual setting = take 36 (combinedSpec rss manual))
    /\ (forall m, setting = Some m -> (0 < m)%Z ->
        mergeArticles rss manual setting
        = take (Z.to_nat m) (combinedSpec rss manual))
    /\ ((Z.of_nat (length high) <= maxArticles setting)%Z ->
        high `prefix_of` mergeArticles rss manual setting).
Proof.
  intros rss manual setting high sorted.
  split; [|split; [|split; [|split; [|split]]]].
  - split; [apply sortWith_perm|].
    split; [apply sortWith_sorted | intros t; apply sortWith_stable].
  - split; [apply firstByUrl_NoDup|]. split; [|apply firstByUrl_first].
    intros u. rewrite firstByUrl_urls. subst sorted.
    by rewrite (sortWith_perm rss).
  - apply mergeArticles_combined.
  - intros ->. rewrite mergeArticles_combined. reflexivity.
  - intros m -> Hm. rewrite mergeArticles_combined.
    destruct m as [|p|p]; try lia. by rewrite slice0_take.
  - intros Hlen. rewrite mergeArticles_combined, slice0_take by lia.
    unfold combinedSpec. fold high.
    rewrite take_app_ge by lia. by apply prefix_app_r.
Qed.

(** Ten candidates, the first two of high priority, and a maximum of five:
    the output has five articles and begins with those two. *)
Lemma mergeArticles_order_witness :
  let rss := [ feedArticle "r1" 10; feedArticle "r2" 70; feedArticle "r3" 30;
               feedArticle "r4" 40; feedArticle "r3" 50; feedArticle "r5" 60;
               feedArticle "r6" 20; feedArticle "r7" 5 ] in
  let manual := [ manualArticle "n1" "normal"; manualArticle "h1" "high";
                  manualArticle "r1" "normal"; manualArticle "h2" "high" ] in
  length (combinedSpec rss manual) = 10
  /\ mergeArticles rss manual None = take 36 (combinedSpec rss manual)
  /\ mergeArticles rss manual (Some 5%Z) = take 5 (combinedSpec rss manual)
  /\ [manualArticle "h1" "high"; manualArticle "h2" "high"]
     `prefix_of` mergeArticles rss manual (Some 5%Z)
  /\ headline <$> mergeArticles rss manual (Some 5%Z)
     = lit <$> ["h1"; "h2"; "r2"; "r5"; "r3"]%string.
Proof.
  intros rss manual.
  pose proof (mergeArticles_order rss manual None) as HNone.
  pose proof (mergeArticles_order rss manual (Some 5%Z)) as HFive.
  cbv zeta in HNone, HFive.
  destruct HNone as (_ & _ & _ & HNone & _).
  destruct HFive as (_ & _ & _ & _ & HFive & Hprefix).
  split; [vm_compute; reflexivity|].
  split; [exact (HNone eq_refl)|].
  split; [exact (HFive 5%Z eq_refl ltac:(lia))|].
  split; [exact (Hprefix ltac:(vm_compute; discriminate))|].
  rewrite (HFive 5%Z eq_refl ltac:(lia)). vm_compute. reflexivity.
Defined.

(** * Further properties of the code *)

(** ** The usage limiter and its command line *)

(** X1.  [recordGeminiCalls(count)] returns today's count increased by
    [count] and that is what the file then holds: a later
    [geminiCallsToday()] on the same day reads the returned value back, and
    two recordings leave the file that one recording of the sum leaves. *)
Theorem recordGeminiCalls_read_back :
  forall today count d,
  exists before after d',
    geminiCallsToday today d = (Returned before, d)
    /\ recordGeminiCalls today (Some count) d = (Returned after, d')
    /\ after = (before + count)%Z
    /\ geminiCallsToday today d' = (Returned after, d')
    /\ forall count',
         snd (recordGeminiCalls today (Some count') d')
         = snd (recordGeminiCalls today (Some (count + count')%Z) d).
Proof.
  intros today count d.
  exists (todaysCount today d), (todaysCount today d + count)%Z,
    (Stored (Counters today (todaysCount today d + count))).
  rewrite geminiCallsToday_run, recordGeminiCalls_run.
  repeat split.
  - rewrite geminiCallsToday_run. simpl. by rewrite bool_decide_eq_true_2.
  - intros count'. rewrite !recordGeminiCalls_run. simpl.
    rewrite bool_decide_eq_true_2 by done. do 2 f_equal. lia.
Qed.

(** X2.  [geminiCallsRemaining(cap)] is never negative, and a request for
    [n >= 1] calls is allowed by [canSpendGemini(n, cap)] exactly when at
    least [n] calls remain. *)
Theorem canSpendGemini_iff_remaining :
  forall today d n cap,
    (1 <= n)%Z ->
    exists remaining,
      geminiCallsRemaining today cap d = (Returned remaining, d)
      /\ (0 <= remaining)%Z
      /\ (fst (canSpendGemini today (Some n) cap d) = Returned true
          <-> (n <= remaining)%Z).
Proof.
  intros today d n cap Hn.
  rewrite geminiCallsRemaining_run, canSpendGemini_run. simpl.
  eexists. split; [reflexivity|]. split; [lia|].
  split.
  - intros [= H%Z.leb_le]. lia.
  - intros H. f_equal. apply Z.leb_le. lia.
Qed.

(** With 97 calls used of 100, three remain: three calls are allowed and four
    are not. *)
Lemma canSpendGemini_iff_remaining_witness :
  exists remaining,
    geminiCallsRemaining (lit "2026-11-02") 100
      (Stored (Counters (lit "2026-11-02") 97))
    = (Returned remaining, Stored (Counters (lit "2026-11-02") 97))
    /\ (0 <= remaining)%Z
    /\ (fst (canSpendGemini (lit "2026-11-02") (Some 3%Z) 100
               (Stored (Counters (lit "2026-11-02") 97))) = Returned true
        <-> (3 <= remaining)%Z).
Proof.
  apply (canSpendGemini_iff_remaining (lit "2026-11-02")
           (Stored (Counters (lit "2026-11-02") 97)) 3%Z 100%Z).
  lia.
Defined.

(** X3.  The command line helper: [simulate n] with a count [n >= 0] sets
    today's count to [n], so that with [n] equal to a cap no further call is
    allowed under that cap; a missing or negative count exits with code 1 and
    writes nothing; [reset] sets today's count to 0; [status] and the usage
    text write nothing. *)
Theorem cli_effects :
  forall today d,
    (forall n, (0 <= n)%Z ->
       cli today (Simulate (Some n)) d = (Returned 0%Z, Stored (Counters today n))
       /\ geminiCallsToday today (snd (cli today (Simulate (Some n)) d))
          = (Returned n, Stored (Counters today n))
       /\ fst (canSpendGemini today (Some 1%Z) n
                 (snd (cli today (Simulate (Some n)) d))) = Returned false)
    /\ (forall n, (n < 0)%Z -> cli today (Simulate (Some n)) d = (Returned 1%Z, d))
    /\ cli today (Simulate None) d = (Returned 1%Z, d)
    /\ cli today Reset d = (Returned 0%Z, Stored (Counters today 0))
    /\ cli today Status d = (Returned 0%Z, d)
    /\ cli today Usage d = (Returned 0%Z, d).
Proof.
  intros today d. repeat split.
  - unfold cli. rewrite (proj2 (Z.ltb_ge _ _) H).
    destruct (loadCounters_count today d) as (c & Hc & _ & Hd).
    unfold mbind, eff_bind. rewrite Hc. simpl. by rewrite Hd.
  - unfold cli. rewrite (proj2 (Z.ltb_ge _ _) H).
    destruct (loadCounters_count today d) as (c & Hc & _ & Hd).
    unfold mbind, eff_bind at 1 2. rewrite Hc. simpl.
    rewrite geminiCallsToday_run, Hd. simpl. by rewrite bool_decide_eq_true_2.
  - unfold cli. rewrite (proj2 (Z.ltb_ge _ _) H).
    destruct (loadCounters_count today d) as (c & Hc & _ & Hd).
    unfold mbind, eff_bind at 1 2. rewrite Hc. simpl.
    rewrite canSpendGemini_run, Hd. simpl. rewrite bool_decide_eq_true_2 by done.
    f_equal. apply Z.leb_gt. lia.
  - intros n Hn. unfold cli. by rewrite (proj2 (Z.ltb_lt _ _) Hn).
  - unfold cli. destruct (loadCounters_count today d) as (c & Hc & _).
    unfold mbind, eff_bind. by rewrite Hc.
Qed.

(** Simulating 100 calls on a stale file. *)
Lemma cli_effects_witness :
  cli (lit "2026-11-02") (Simulate (Some 100%Z))
    (Stored (Counters (lit "2026-11-01") 7))
  = (Returned 0%Z, Stored (Counters (lit "2026-11-02") 100))
  /\ cli (lit "2026-11-02") (Simulate (Some (-1)%Z)) Absent = (Returned 1%Z, Absent).
Proof.
  pose proof (cli_effects (lit "2026-11-02")
                (Stored (Counters (lit "2026-11-01") 7))) as (Hsim & _).
  pose proof (cli_effects (lit "2026-11-02") Absent) as (_ & Hneg & _).
  split.
  - exact (proj1 (Hsim 100%Z ltac:(lia))).
  - exact (Hneg (-1)%Z ltac:(lia)).
Defined.

(** ** The analyst mode *)



Lemma briefLoop_run key today extract cap replies articles : forall i d,
  truthyString key = true ->
  let calls := Nat.min (length articles) (Z.to_nat (cap - todaysCount today d)) in
  exists done d',
    AnalystMode.briefLoop key today extract cap replies i articles d
    = (Returned (done, bool_decide (calls < length articles)), d')
    /\ todaysCount today d' = (todaysCount today d + Z.of_nat calls)%Z
    /\ (calls = 0 -> d' = d)
    /\ done.*1 = articles
    /\ Forall (fun p => p.2 = None) (drop calls done).
Proof.
  induction articles as [|a rest IH]; intros i d Hkey calls; subst calls.
  - exists [], d. simpl. repeat split; [lia | constructor].
  - cbn [AnalystMode.briefLoop]. unfold mbind, eff_bind at 1.
    rewrite canSpendGemini_run.
    change (default 1%Z (Some 1%Z)) with 1%Z.
    destruct (Z.leb_spec (todaysCount today d + 1) cap) as [Hfit|Hfull].
    + cbn [negb]. unfold mbind, eff_bind at 1. cbv beta.
      destruct (generateAnalystBrief_records_once key today extract
                  (replies i) a d Hkey) as (brief & ->).
      set (d1 := Stored (Counters today (todaysCount today d + 1))).
      assert (Hd1 : todaysCount today d1 = (todaysCount today d + 1)%Z).
      { simpl. by rewrite bool_decide_eq_true_2. }
      destruct (IH (S i) d1 Hkey) as (done & d' & Hrun & Hcount & _ & Hfst & Hnone).
      cbv zeta in Hrun, Hcount, Hnone. rewrite Hd1 in Hrun, Hcount, Hnone.
      unfold mbind, eff_bind at 1. rewrite Hrun.
      unfold mret, eff_ret. cbn [fst snd length].
      replace (Nat.min (S (length rest)) (Z.to_nat (cap - todaysCount today d)))
        with (S (Nat.min (length rest)
                   (Z.to_nat (cap - (todaysCount today d + 1))))) by lia.
      exists ((a, brief) :: done), d'. repeat split.
      * do 3 f_equal. apply bool_decide_ext. lia.
      * lia.
      * lia.
      * rewrite fmap_cons. by rewrite Hfst.
      * exact Hnone.
    + cbn [negb].
      replace (Nat.min (length (a :: rest))
                 (Z.to_nat (cap - todaysCount today d))) with 0
        by (cbn [length]; lia).
      eexists _, d. unfold mret, eff_ret. cbn [drop length]. repeat split.
      * lia.
      * by rewrite <- list_fmap_compose, list_fmap_id.
      * constructor; [done|]. apply Forall_fmap, Forall_true. done.
Qed.

Lemma generateBriefs_run :
  forall key today extract cap replies capped d,
    (truthyString key = true ->
     let before := todaysCount today d in
     let calls := Nat.min (length capped) (Z.to_nat (cap - before)) in
     exists done d',
       AnalystMode.generateBriefs key today extract cap replies capped d
       = (Returned (done, bool_decide ((cap - before < 1)%Z
                                       \/ calls < length capped)), d')
       /\ todaysCount today d' = (before + Z.of_nat calls)%Z
       /\ (todaysCount today d' <= Z.max before cap)%Z
       /\ done.*1 = capped
       /\ Forall (fun p => p.2 = None) (drop calls done))
    /\ (truthyString key = false ->
        AnalystMode.generateBriefs key today extract cap replies capped d
        = (Returned (map (fun a => (a, None)) capped, false), d)).
Proof.
  intros key today extract cap replies capped d. split; intros Hkey.
  - intros before calls. unfold AnalystMode.generateBriefs. rewrite Hkey.
    cbn [negb]. unfold mbind, eff_bind at 1. rewrite canSpendGemini_run.
    change (default 1%Z (Some 1%Z)) with 1%Z. fold before.
    destruct (Z.leb_spec (before + 1) cap) as [Hfit|Hfull]; cbn [negb].
    + unfold mbind, eff_bind at 1. rewrite geminiCallsRemaining_run.
      destruct (briefLoop_run key today extract cap replies capped 0 d Hkey)
        as (done & d' & Hrun & Hcount & _ & Hfst & Hnone).
      fold before in Hrun, Hcount, Hnone. fold calls in Hrun, Hcount, Hnone.
      exists done, d'. rewrite Hrun. repeat split; try done.
      * do 3 f_equal. apply bool_decide_ext. lia.
      * lia.
    + unfold mbind, eff_bind at 1. rewrite geminiCallsRemaining_run.
      assert (calls = 0) as -> by (subst calls; lia).
      exists (map (fun a => (a, None)) capped), d.
      unfold mret, eff_ret. cbn [drop]. repeat split.
      * rewrite bool_decide_eq_true_2 by lia. reflexivity.
      * lia.
      * lia.
      * by rewrite <- list_fmap_compose, list_fmap_id.
      * apply Forall_fmap, Forall_true. done.
  - unfold AnalystMode.generateBriefs. by rewrite Hkey.
Qed.

(** X5.  The briefs stay within the daily cap.  With an API key, a run over
    [capped] makes [min (length capped) (cap - count)] requests, none when the
    count has reached the cap: today's count grows by that number and never
    passes the larger of the cap and its value before the run.  The articles
    come back in their order, those past the last request without a brief,
    and the flag says whether the cap stopped the run.  Without a key nothing
    is requested or recorded. *)
Theorem generateBriefs_within_cap :
  forall key today extract cap replies capped d,
    (truthyString key = true ->
     let before := todaysCount today d in
     let calls := Nat.min (length capped) (Z.to_nat (cap - before)) in
     exists done d',
       AnalystMode.generateBriefs key today extract cap replies capped d
       = (Returned (done, bool_decide ((cap - before < 1)%Z
                                       \/ calls < length capped)), d')
       /\ todaysCount today d' = (before + Z.of_nat calls)%Z
       /\ (todaysCount today d' <= Z.max before cap)%Z
       /\ done.*1 = capped
       /\ Forall (fun p => p.2 = None) (drop calls done))
    /\ (truthyString key = false ->
        AnalystMode.generateBriefs key today extract cap replies capped d
        = (Returned (map (fun a => (a, None)) capped, false), d)).
Proof. exact generateBriefs_run. Qed.

(** Three articles with 98 of 100 calls used: two requests, the third article
    without a brief, the flag raised. *)
Lemma generateBriefs_within_cap_witness :
  let capped := [feedArticle "r1" 30; feedArticle "r2" 20; feedArticle "r3" 10] in
  let d := Stored (Counters (lit "2026-11-02") 98) in
  exists done d',
    AnalystMode.generateBriefs (Some (lit "key")) (lit "2026-11-02")
      (fun _ => Returned (Some (lit "SUMMARY"))) 100
      (fun _ => Thrown (lit "timeout")) capped d
    = (Returned (done, true), d')
    /\ todaysCount (lit "2026-11-02") d' = 100%Z
    /\ done.*1 = capped
    /\ Forall (fun p => p.2 = None) (drop 2 done).
Proof.
  intros capped d.
  destruct (proj1 (generateBriefs_within_cap (Some (lit "key"))
                     (lit "2026-11-02") (fun _ => Returned (Some (lit "SUMMARY")))
                     100 (fun _ => Thrown (lit "timeout")) capped d) eq_refl)
    as (done & d' & Hrun & Hcount & _ & Hfst & Hnone).
  exists done, d'. split; [exact Hrun|]. split; [exact Hcount|].
  split; [exact Hfst | exact Hnone].
Defined.

Lemma dedupByUrl_loop l : forall st,
  fold_left AnalystMode.dedupByUrlStep l st
  = fold_left dedupStep (filter (fun a => urlOf a <> []) l) st.
Proof.
  induction l as [|a l IH]; intros [seen kept]; [reflexivity|].
  cbn [fold_left AnalystMode.dedupByUrlStep]. fold (urlOf a).
  rewrite filter_cons. destruct (decide (urlOf a <> [])) as [Hurl|Hurl].
  - rewrite bool_decide_eq_false_2 by done.
    cbn [orb fold_left dedupStep]. fold (urlOf a).
    rewrite IH. destruct (decide (urlOf a ∈ seen)).
    + by rewrite bool_decide_eq_true_2.
    + by rewrite bool_decide_eq_false_2.
  - rewrite bool_decide_eq_true_2 by (by destruct (decide (urlOf a = []))).
    apply IH.
Qed.

Lemma deduplicateByUrl_firstByUrl l :
  AnalystMode.deduplicateByUrl l
  = firstByUrl (filter (fun a => urlOf a <> []) l).
Proof.
  unfold AnalystMode.deduplicateByUrl.
  rewrite dedupByUrl_loop, dedup_loop. cbn [snd app].
  apply filter_all. set_solver.
Qed.

(** X6.  [deduplicateByUrl] drops the articles without a url and keeps, of
    the others, the first article of each url in their order: no url is left
    twice and every non-empty url of the input is still there. *)
Theorem deduplicateByUrl_keeps_first :
  forall l,
    AnalystMode.deduplicateByUrl l
    = firstByUrl (filter (fun a => urlOf a <> []) l)
    /\ AnalystMode.deduplicateByUrl l `sublist_of` l
    /\ NoDup (urlOf <$> AnalystMode.deduplicateByUrl l)
    /\ forall u, u ∈ urlOf <$> AnalystMode.deduplicateByUrl l
                 <-> u <> [] /\ u ∈ urlOf <$> l.
Proof.
  intros l. rewrite deduplicateByUrl_firstByUrl.
  split; [reflexivity|]. split; [|split].
  - etrans; [apply firstByUrl_sublist | apply sublist_filter].
  - apply firstByUrl_NoDup.
  - intros u. rewrite firstByUrl_urls, !list_elem_of_fmap. split.
    + intros (a & -> & [Hu Ha]%list_elem_of_filter). eauto.
    + intros (Hu & a & -> & Ha). exists a. split; [done|].
      by apply list_elem_of_filter.
Qed.





(** ** Fetching the feeds *)







Lemma fetchFeed_fails lower parseDate now feed reply :
  feedFails reply -> fetchFeed lower parseDate now feed reply = [].
Proof.
  unfold fetchFeed, fetchFeedAttempt, mbind, outcome_bind.
  destruct reply as [r|e]; [|reflexivity].
  intros [Hok|[e Hparsed]].
  - by rewrite Hok.
  - destruct (feed_ok r); [|reflexivity]. by rewrite Hparsed.
Qed.







Lemma fetchAllFeeds_skip lower parseDate now feeds1 f r feeds2 :
  sf_enabled f = false \/ fetchFeed lower parseDate now (sf_feed f) r = [] ->
  concat (fetchAllFeeds lower parseDate now (feeds1 ++ (f, r) :: feeds2))
  = concat (fetchAllFeeds lower parseDate now (feeds1 ++ feeds2)).
Proof.
  intros H. unfold fetchAllFeeds.
  rewrite !List.filter_app, !map_app, !concat_app. f_equal.
  cbn [List.filter fst snd]. destruct (sf_enabled f); [|reflexivity].
  destruct H as [?|H]; [done|]. cbn [map concat fst snd]. by rewrite H.
Qed.

(** X10.  Feeds are isolated from one another: a feed that is disabled, or
    whose request fails (rejected, status not [ok], body that does not
    parse), changes nothing for the others.  The run gives the result it
    gives with that feed removed from [sources.json]. *)
Theorem failed_feed_changes_nothing :
  forall lower parseDate now key setting feeds1 f r feeds2 manual replies d,
    sf_enabled f = false \/ feedFails r ->
    mainFromSources lower parseDate now key setting
      (feeds1 ++ (f, r) :: feeds2) manual replies d
    = mainFromSources lower parseDate now key setting
        (feeds1 ++ feeds2) manual replies d.
Proof.
  intros lower parseDate now key setting feeds1 f r feeds2 manual replies d H.
  unfold mainFromSources, main.
  rewrite (fetchAllFeeds_skip lower parseDate now feeds1 f r feeds2);
    [reflexivity|].
  destruct H as [?|H]; [by left|right]. by apply fetchFeed_fails.
Qed.

(** A feed that times out between two feeds that answer. *)
Lemma failed_feed_changes_nothing_witness :
  let good t := rssReply (One (sampleItem t "2026-11-01T08:00:00Z")) in
  let feedA := (SourceFeed sampleFeed true, good "a"%string) in
  let feedB := (SourceFeed sampleFeed true, Thrown (lit "The operation timed out")) in
  let feedC := (SourceFeed sampleFeed true, good "c"%string) in
  mainFromSources asciiLower sampleParseDate 0 None None [feedA; feedB; feedC] []
    (fun _ => Thrown []) Absent
  = mainFromSources asciiLower sampleParseDate 0 None None [feedA; feedC] []
      (fun _ => Thrown []) Absent.
Proof.
  intros good feedA feedB feedC.
  apply (failed_feed_changes_nothing asciiLower sampleParseDate 0 None None
           [feedA] (SourceFeed sampleFeed true)
           (Thrown (lit "The operation timed out")) [feedC]).
  right. exact I.
Defined.

(** ** White space *)

Lemma span_spec p s :
  s = (span p s).1 ++ (span p s).2
  /\ forallb p (span p s).1 = true
  /\ match (span p s).2 with d :: _ => p d = false | [] => True end.
Proof.
  induction s as [|c s (IH1 & IH2 & IH3)]; [done|].
  simpl. destruct (p c) eqn:Hc; [|done].
  destruct (span p s) as [a b]. simpl in *. rewrite Hc. by rewrite IH1 at 1.
Qed.

Lemma replaceFrom_skip m w rest :
  replaceFrom m (length w) (w ++ rest) = replaceFrom m 0 rest.
Proof. induction w as [|c w IH]; [reflexivity | exact IH]. Qed.

Lemma replaceAll_spaceRun_other c s :
  isSpace c = false ->
  replaceAll spaceRun (c :: s) = c :: replaceAll spaceRun s.
Proof.
  intros Hc. unfold replaceAll. cbn [replaceFrom]. unfold spaceRun at 1.
  cbn [span]. by rewrite Hc.
Qed.

Lemma replaceAll_spaceRun_space c s :
  isSpace c = true ->
  replaceAll spaceRun (c :: s) = 32%Z :: replaceAll spaceRun (span isSpace s).2.
Proof.
  intros Hc. unfold replaceAll. cbn [replaceFrom]. unfold spaceRun at 1.
  cbn [span]. rewrite Hc.
  destruct (span_spec isSpace s) as (Hs & _ & _).
  destruct (span isSpace s) as [w rest]. cbn [fst snd] in *.
  cbn [length Nat.pred app]. rewrite Hs at 1. by rewrite replaceFrom_skip.
Qed.

Lemma length_span_snd p s : length (span p s).2 <= length s.
Proof.
  destruct (span_spec p s) as (Hs & _ & _).
  rewrite Hs at 2. rewrite length_app. lia.
Qed.

Lemma singleSpaced_spaceRun s : singleSpaced (replaceAll spaceRun s) = true.
Proof.
  remember (length s) as n eqn:Hn.
  assert (Hle : length s <= n) by lia. clear Hn. revert s Hle.
  induction n as [|n IH]; intros [|c s] Hle; try reflexivity;
    [simpl in Hle; lia|].
  simpl in Hle. destruct (isSpace c) eqn:Hc.
  - rewrite replaceAll_spaceRun_space by done.
    pose proof (length_span_snd isSpace s) as Hlen.
    destruct (span_spec isSpace s) as (_ & _ & Hhead).
    cbn [singleSpaced]. rewrite IH by lia.
    change (isSpace 32) with true. cbn [Z.eqb Pos.eqb andb].
    destruct (span isSpace s).2 as [|d rest]; [reflexivity|].
    rewrite replaceAll_spaceRun_other by done. by rewrite Hhead.
  - rewrite replaceAll_spaceRun_other by done.
    cbn [singleSpaced]. rewrite Hc. apply IH. lia.
Qed.

Lemma singleSpaced_tail c s : singleSpaced (c :: s) = true -> singleSpaced s = true.
Proof. cbn [singleSpaced]. by intros [_ ?]%andb_true_iff. Qed.

Lemma singleSpaced_app_l a b :
  singleSpaced (a ++ b) = true -> singleSpaced a = true.
Proof.
  induction a as [|c a IH]; [reflexivity|].
  cbn [app singleSpaced]. intros [Hc Hrest]%andb_true_iff.
  rewrite (IH Hrest), andb_true_r.
  destruct (isSpace c); [|reflexivity].
  apply andb_true_iff in Hc as [-> Hnext]. destruct a; [reflexivity | exact Hnext].
Qed.

Lemma singleSpaced_app_dots a :
  singleSpaced a = true -> singleSpaced (a ++ lit "...") = true.
Proof.
  induction a as [|c a IH]; [reflexivity|].
  cbn [app singleSpaced]. intros [Hc Hrest]%andb_true_iff.
  rewrite (IH Hrest), andb_true_r.
  destruct (isSpace c); [|reflexivity].
  apply andb_true_iff in Hc as [-> Hnext]. destruct a; [reflexivity | exact Hnext].
Qed.

Lemma trimStart_suffix s : exists w, s = w ++ trimStart s.
Proof.
  induction s as [|c s [w IH]]; [by exists []|].
  simpl. destruct (isSpace c); [|by exists []].
  exists (c :: w). simpl. by rewrite <- IH.
Qed.

Lemma singleSpaced_suffix w s :
  singleSpaced (w ++ s) = true -> singleSpaced s = true.
Proof.
  induction w as [|c w IH]; [done|]. intros H. apply IH.
  by apply singleSpaced_tail in H.
Qed.

Lemma head_trimStart s c : head (trimStart s) = Some c -> isSpace c = false.
Proof.
  induction s as [|x s IH]; [done|]. simpl.
  destruct (isSpace x) eqn:Hx; [exact IH|]. by intros [= <-].
Qed.

Lemma trim_prefix s : exists w, trimStart s = trim s ++ w.
Proof.
  unfold trim. destruct (trimStart_suffix (rev (trimStart s))) as [w Hw].
  exists (rev w). rewrite <- rev_app_distr, <- Hw. by rewrite rev_involutive.
Qed.

Lemma last_rev (l : list Z) : last (rev l) = head l.
Proof. destruct l as [|x l]; [done|]. simpl. apply last_snoc. Qed.

Lemma singleSpaced_no_double s l1 c d l2 :
  singleSpaced s = true -> s = l1 ++ c :: d :: l2 ->
  isSpace c = true -> isSpace d = true -> False.
Proof.
  intros Hs -> Hc Hd. apply singleSpaced_suffix in Hs.
  cbn [singleSpaced] in Hs. rewrite Hc, Hd in Hs.
  by rewrite andb_false_r in Hs.
Qed.

Lemma singleSpaced_only_spaces s :
  singleSpaced s = true -> Forall (fun c => isSpace c = true -> c = 32%Z) s.
Proof.
  induction s as [|c s IH]; [constructor|].
  cbn [singleSpaced]. intros [Hc Hs]%andb_true_iff.
  constructor; [|by apply IH]. intros Hsp. rewrite Hsp in Hc.
  apply andb_true_iff in Hc as [Hc _]. by apply Z.eqb_eq.
Qed.

Lemma tidy_of_test s :
  singleSpaced s = true ->
  (forall c, head s = Some c -> isSpace c = false) ->
  (forall c, last s = Some c -> isSpace c = false) ->
  tidy s.
Proof.
  intros Hs Hhead Hlast.
  split; [by apply singleSpaced_only_spaces|].
  split; [intros l1 c d l2; by apply singleSpaced_no_double | done].
Qed.

Lemma trim_normal s :
  singleSpaced s = true ->
  singleSpaced (trim s) = true
  /\ (forall c, head (trim s) = Some c -> isSpace c = false)
  /\ (forall c, last (trim s) = Some c -> isSpace c = false).
Proof.
  intros Hs. destruct (trimStart_suffix s) as [w Hw].
  destruct (trim_prefix s) as [w' Hw'].
  split; [|split].
  - rewrite Hw in Hs. apply singleSpaced_suffix in Hs.
    rewrite Hw' in Hs. by apply singleSpaced_app_l in Hs.
  - intros c Hc. apply (head_trimStart s).
    rewrite Hw'. destruct (trim s); [done | exact Hc].
  - intros c. unfold trim. rewrite last_rev. apply head_trimStart.
Qed.

Lemma limitLength_normal t :
  singleSpaced t = true ->
  (forall c, head t = Some c -> isSpace c = false) ->
  (forall c, last t = Some c -> isSpace c = false) ->
  tidy (limitLength t).
Proof.
  intros Hs Hhead Hlast. unfold limitLength, substring0.
  destruct (Nat.ltb_spec 300 (length t)) as [Hlen|Hlen];
    [|by apply tidy_of_test].
  apply tidy_of_test.
  - apply singleSpaced_app_dots.
    rewrite <- (take_drop 297 t) in Hs. by apply singleSpaced_app_l in Hs.
  - intros c. destruct t as [|x t]; [simpl in Hlen; lia|].
    simpl. intros [= <-]. by apply Hhead.
  - intros c. change (lit "...") with ([46; 46] ++ [46])%Z.
    rewrite app_assoc, last_snoc. by intros [= <-].
Qed.

(** X11.  Every cleaned headline and every cleaned description has its white
    space in normal form: tabs, line breaks and the other white-space
    characters have become spaces, no two spaces follow one another, and
    the text neither begins nor ends with one (a description cut at 300
    characters ends with the three dots). *)
Theorem cleaned_text_is_tidy :
  forall text, tidy (cleanHeadline text) /\ tidy (cleanDescription text).
Proof.
  intros [|c text]; split.
  - apply tidy_of_test; [reflexivity| |]; simpl; by intros ? [= <-].
  - apply tidy_of_test; [reflexivity| |]; by simpl.
  - unfold cleanHeadline.
    destruct (trim_normal (replaceAll spaceRun
                (stripSourceSuffix (decodeHtmlEntities
                   (replaceAll htmlTag (c :: text))))))
      as (H1 & H2 & H3); [apply singleSpaced_spaceRun|].
    by apply tidy_of_test.
  - rewrite cleanDescription_limit by done.
    destruct (trim_normal (replaceAll spaceRun
                (decodeHtmlEntities (replaceAll htmlTag (c :: text)))))
      as (H1 & H2 & H3); [apply singleSpaced_spaceRun|].
    by apply limitLength_normal.
Qed.

(** ** The source suffix and the keywords *)

Lemma isSourceSuffix_starts_with_space t :
  isSourceSuffix t = true -> exists c t', t = c :: t' /\ isSpace c = true.
Proof.
  unfold isSourceSuffix. destruct t as [|c t']; [done|].
  cbn [span]. destruct (isSpace c) eqn:Hc; [eauto|done].
Qed.

(** X12.  The removal of a trailing source name only cuts a tail off the
    headline, and what it cuts is either nothing or a text that matches the
    pattern whole (spaces, a dash or bar, spaces, a capital letter and 2 to
    20 letters or spaces).  A text without white space, such as a model
    number with a hyphen, is left alone; a text that ends in such a suffix
    loses at least the suffix. *)
Theorem stripSourceSuffix_cuts_a_tail :
  forall s,
    (exists t, s = stripSourceSuffix s ++ t
               /\ (t = [] \/ isSourceSuffix t = true))
    /\ (Forall (fun c => isSpace c = false) s -> stripSourceSuffix s = s)
    /\ (forall t, isSourceSuffix t = true ->
          stripSourceSuffix (s ++ t) `prefix_of` s).
Proof.
  intros s. split; [|split].
  - induction s as [|c s (t & Hs & Ht)]; [exists []; split; [done | by left]|].
    cbn [stripSourceSuffix]. destruct (isSourceSuffix (c :: s)) eqn:Hm.
    + exists (c :: s). split; [done | by right].
    + exists t. split; [simpl; by rewrite <- Hs | done].
  - induction 1 as [|c s Hc _ IH]; [done|].
    cbn [stripSourceSuffix]. destruct (isSourceSuffix (c :: s)) eqn:Hm.
    + apply isSourceSuffix_starts_with_space in Hm as (? & ? & [= <- <-] & ?).
      congruence.
    + by rewrite IH.
  - intros t Ht. induction s as [|c s IH].
    + simpl. destruct (isSourceSuffix_starts_with_space t Ht)
        as (c & t' & -> & _).
      cbn [stripSourceSuffix]. by rewrite Ht.
    + cbn [app stripSourceSuffix].
      destruct (isSourceSuffix (c :: s ++ t)); [apply prefix_nil|].
      by apply prefix_cons.
Qed.

(** "F-35" and "737-800" stay; " | Reuters" goes. *)
Lemma stripSourceSuffix_cuts_a_tail_witness :
  stripSourceSuffix (lit "737-800/F-35") = lit "737-800/F-35"
  /\ stripSourceSuffix (lit "Boeing 737-800 lands" ++ lit " | Reuters")
     `prefix_of` lit "Boeing 737-800 lands".
Proof.
  split.
  - apply stripSourceSuffix_cuts_a_tail. by vm_compute; repeat constructor.
  - apply stripSourceSuffix_cuts_a_tail. vm_compute. reflexivity.
Defined.

Lemma startsWith_app p q s : startsWith (p ++ q) s = true -> startsWith p s = true.
Proof.
  revert s. induction p as [|x p IH]; intros s; [done|].
  destruct s as [|c s]; [done|]. cbn [app startsWith].
  intros [-> H]%andb_true_iff. by apply IH.
Qed.

Lemma includes_prefix t p q : includes t (p ++ q) = true -> includes t p = true.
Proof.
  induction t as [|c t IH]; cbn [includes].
  - rewrite !orb_false_r. apply startsWith_app.
  - intros [H|H]%orb_true_iff; apply orb_true_iff;
      [left; by eapply startsWith_app | right; by apply IH].
Qed.

Lemma filter_sublist {A} (f : A -> bool) l : List.filter f l `sublist_of` l.
Proof.
  induction l as [|x l IH]; [constructor|].
  simpl. destruct (f x); by constructor.
Qed.

(** X13.  The keywords of a text are the words of the fixed vocabulary that
    its lower-cased form contains, in the order of the vocabulary and each
    once.  Containment is by substring, so a text with "safety" also gets
    "saf", and one with "spacex" also gets "space". *)
Theorem extractKeywords_vocabulary :
  forall lower text,
    extractKeywords lower text `sublist_of` keywordPatterns
    /\ NoDup (extractKeywords lower text)
    /\ (forall k, k ∈ extractKeywords lower text
                  <-> k ∈ keywordPatterns /\ includes (lower text) k = true)
    /\ (lit "safety" ∈ extractKeywords lower text ->
        lit "saf" ∈ extractKeywords lower text)
    /\ (lit "spacex" ∈ extractKeywords lower text ->
        lit "space" ∈ extractKeywords lower text).
Proof.
  intros lower text.
  assert (Hin : forall k, k ∈ extractKeywords lower text
                  <-> k ∈ keywordPatterns /\ includes (lower text) k = true).
  { intros k. unfold extractKeywords.
    rewrite !list_elem_of_In, filter_In. done. }
  split; [apply filter_sublist|]. split.
  - eapply sublist_NoDup; [|apply filter_sublist].
    apply (bool_decide_unpack _). vm_compute. reflexivity.
  - split; [exact Hin|]. split; intros [_ H]%Hin; apply Hin; split.
    + apply (bool_decide_unpack _). vm_compute. reflexivity.
    + by apply (includes_prefix _ (lit "saf") (lit "ety")).
    + apply (bool_decide_unpack _). vm_compute. reflexivity.
    + by apply (includes_prefix _ (lit "space") (lit "x")).
Qed.

(** A headline about SpaceX and safety. *)
Lemma extractKeywords_vocabulary_witness :
  extractKeywords asciiLower (lit "SpaceX safety review")
  = map lit ["saf"; "safety"; "spacex"; "space"]%string
  /\ lit "saf" ∈ extractKeywords asciiLower (lit "SpaceX safety review")
  /\ lit "space" ∈ extractKeywords asciiLower (lit "SpaceX safety review").
Proof.
  split; [vm_compute; reflexivity|]. split.
  - apply (extractKeywords_vocabulary asciiLower (lit "SpaceX safety review")).
    apply (bool_decide_unpack _). vm_compute. reflexivity.
  - apply (extractKeywords_vocabulary asciiLower (lit "SpaceX safety review")).
    apply (bool_decide_unpack _). vm_compute. reflexivity.
Defined.

(** ** Escaping *)

Lemma replaceAll_char c rep s :
  replaceAll (literal [c] rep) s
  = flat_map (fun x => if (c =? x)%Z then rep else [x]) s.
Proof.
  unfold replaceAll. induction s as [|x s IH]; [reflexivity|].
  cbn [replaceFrom flat_map]. unfold literal at 1. cbn [startsWith].
  rewrite andb_true_r. destruct (c =? x)%Z; cbn [length Nat.pred];
    by rewrite IH.
Qed.

Lemma flat_map_flat_map {A B C} (f : A -> list B) (g : B -> list C) l :
  flat_map g (flat_map f l) = flat_map (fun x => flat_map g (f x)) l.
Proof.
  induction l as [|x l IH]; [reflexivity|].
  simpl. by rewrite flat_map_app, IH.
Qed.

Lemma escapeHtml_chars s : escapeHtml s = flat_map escapeChar s.
Proof.
  destruct s as [|c0 s0]; [reflexivity|]. unfold escapeHtml.
  generalize (c0 :: s0). clear. intros s.
  change (lit "&") with [38%Z]. change (lit "<") with [60%Z].
  change (lit ">") with [62%Z]. change (lit "'") with [39%Z].
  rewrite !replaceAll_char, !flat_map_flat_map.
  apply flat_map_ext. intros c. unfold escapeChar.
  destruct (Z.eqb_spec 38 c) as [<-|H38]; [reflexivity|].
  rewrite (proj2 (Z.eqb_neq c 38)) by done. cbn [flat_map app].
  destruct (Z.eqb_spec 60 c) as [<-|H60]; [reflexivity|].
  rewrite (proj2 (Z.eqb_neq c 60)) by done. cbn [flat_map app].
  destruct (Z.eqb_spec 62 c) as [<-|H62]; [reflexivity|].
  rewrite (proj2 (Z.eqb_neq c 62)) by done. cbn [flat_map app].
  destruct (Z.eqb_spec 34 c) as [<-|H34]; [reflexivity|].
  rewrite (proj2 (Z.eqb_neq c 34)) by done. cbn [flat_map app].
  destruct (Z.eqb_spec 39 c) as [<-|H39]; [reflexivity|].
  rewrite (proj2 (Z.eqb_neq c 39)) by done. reflexivity.
Qed.

(** X14.  [escapeHtml] replaces each of the five characters by its reference
    and leaves every other character alone, as if in one pass: the ampersand
    of a reference it writes is not escaped again.  Its result holds no
    [<], [>], double or single quote, so it cannot close the attribute or
    the element it is written into; a text with none of the five characters
    is returned unchanged. *)
Theorem escapeHtml_one_pass :
  forall s,
    escapeHtml s = flat_map escapeChar s
    /\ Forall (fun c => c <> 60 /\ c <> 62 /\ c <> 34 /\ c <> 39)%Z (escapeHtml s)
    /\ (Forall (fun c => c <> 38 /\ c <> 60 /\ c <> 62 /\ c <> 34 /\ c <> 39)%Z s ->
        escapeHtml s = s).
Proof.
  intros s. rewrite escapeHtml_chars. split; [reflexivity|]. split.
  - induction s as [|c s IH]; [constructor|].
    cbn [flat_map]. apply Forall_app. split; [|exact IH].
    unfold escapeChar.
    repeat match goal with
           | |- context [(c =? ?k)%Z] => destruct (Z.eqb_spec c k)
           end;
      repeat match goal with
             | |- context [lit ?t] =>
                 let v := eval vm_compute in (lit t) in change (lit t) with v
             end;
      repeat (apply List.Forall_cons; [lia|]); apply List.Forall_nil.
  - induction 1 as [|c s (H38 & H60 & H62 & H34 & H39) _ IH]; [reflexivity|].
    cbn [flat_map]. rewrite IH. unfold escapeChar.
    by rewrite !(proj2 (Z.eqb_neq c _)).
Qed.

(** A takeaway with a quote and an ampersand. *)
Lemma escapeHtml_one_pass_witness :
  escapeHtml (lit "Hangar open day") = lit "Hangar open day"
  /\ escapeHtml (lit "AT&T's <b>") = lit "AT&amp;T&#39;s &lt;b&gt;".
Proof.
  split; [|vm_compute; reflexivity].
  apply escapeHtml_one_pass. by vm_compute; repeat constructor.
Defined.

Lemma replaceAll_pieces m (e e' : Z -> jsstring) s :
  (forall c rest, c <> 38%Z ->
     replaceFrom m 0 (e c ++ rest) = e' c ++ replaceFrom m 0 rest) ->
  Forall (fun c => c <> 38%Z) s ->
  replaceAll m (flat_map e s) = flat_map e' s.
Proof.
  intros Hm. unfold replaceAll.
  induction 1 as [|c s Hc _ IH]; [reflexivity|].
  cbn [flat_map]. by rewrite Hm, IH.
Qed.

Lemma literal_amp_none p rep c rest :
  c <> 38%Z -> literal (38%Z :: p) rep (c :: rest) = None.
Proof.
  intros Hc. unfold literal. cbn [startsWith].
  by rewrite (proj2 (Z.eqb_neq 38 c)).
Qed.

Lemma decimalEntity_none c rest : c <> 38%Z -> decimalEntity (c :: rest) = None.
Proof.
  intros Hc. unfold decimalEntity.
  destruct c as [|p|p]; try reflexivity.
  do 6 (destruct p as [p|p|]; try reflexivity). done.
Qed.

Lemma hexEntity_none c rest : c <> 38%Z -> hexEntity (c :: rest) = None.
Proof.
  intros Hc. unfold hexEntity.
  destruct c as [|p|p]; try reflexivity.
  do 6 (destruct p as [p|p|]; try reflexivity). done.
Qed.

Lemma decodeHtmlEntities_chain t :
  decodeHtmlEntities t = fold_left (fun acc m => replaceAll m acc) entityPatterns t.
Proof. destruct t; reflexivity. Qed.

(** The closed tests and literals of a goal, evaluated. *)
Ltac eval_closed :=
  repeat match goal with
         | |- context [bool_decide ?P] =>
             let v := eval vm_compute in (bool_decide P) in
             change (bool_decide P) with v
         | |- context [lit ?t] =>
             let v := eval vm_compute in (lit t) in change (lit t) with v
         end.

Ltac piece_pass none_lemma :=
  let c := fresh "c" in
  let rest := fresh "rest" in
  let Hc := fresh "Hc" in
  intros c rest Hc; unfold pieceOf, escapeChar;
  rewrite (proj2 (Z.eqb_neq c 38)) by done;
  destruct (Z.eqb_spec c 60) as [->|?]; [eval_closed; cbn; reflexivity|];
  destruct (Z.eqb_spec c 62) as [->|?]; [eval_closed; cbn; reflexivity|];
  destruct (Z.eqb_spec c 34) as [->|?]; [eval_closed; cbn; reflexivity|];
  destruct (Z.eqb_spec c 39) as [->|?]; [eval_closed; cbn; reflexivity|];
  rewrite !bool_decide_eq_false_2 by set_solver;
  eval_closed; cbn [app replaceFrom]; rewrite none_lemma by done; reflexivity.

Lemma decode_escaped_pieces s :
  Forall (fun c => c <> 38%Z) s ->
  decodeHtmlEntities (flat_map (pieceOf []) s)
  = flat_map (pieceOf [39; 60; 62; 34]%Z) s.
Proof.
  intros Hs. rewrite decodeHtmlEntities_chain. unfold entityPatterns.
  cbn [fold_left].
  rewrite (replaceAll_pieces decimalEntity (pieceOf []) (pieceOf [39%Z]) s)
    by (done || piece_pass decimalEntity_none).
  rewrite (replaceAll_pieces hexEntity (pieceOf [39%Z]) (pieceOf [39%Z]) s)
    by (done || piece_pass hexEntity_none).
  rewrite (replaceAll_pieces (literal (lit "&amp;") _)
             (pieceOf [39%Z]) (pieceOf [39%Z]) s)
    by (done || piece_pass literal_amp_none).
  rewrite (replaceAll_pieces (literal (lit "&lt;") _)
             (pieceOf [39%Z]) (pieceOf [39; 60]%Z) s)
    by (done || piece_pass literal_amp_none).
  rewrite (replaceAll_pieces (literal (lit "&gt;") _)
             (pieceOf [39; 60]%Z) (pieceOf [39; 60; 62]%Z) s)
    by (done || piece_pass literal_amp_none).
  rewrite (replaceAll_pieces (literal (lit "&quot;") _)
             (pieceOf [39; 60; 62]%Z) (pieceOf [39; 60; 62; 34]%Z) s)
    by (done || piece_pass literal_amp_none).
  repeat rewrite (replaceAll_pieces (literal _ _)
             (pieceOf [39; 60; 62; 34]%Z) (pieceOf [39; 60; 62; 34]%Z) s)
    by (done || piece_pass literal_amp_none).
  reflexivity.
Qed.

(** X15.  Escaping and decoding are inverse on a text without ampersand:
    [decodeHtmlEntities(escapeHtml(s))] is [s].  The condition cannot be
    dropped: the ampersand of a text that already reads as a reference is
    escaped, and the decoder, whose passes follow one another, decodes the
    result twice. *)
Theorem decode_escape_round_trip :
  (forall s, Forall (fun c => c <> 38%Z) s ->
             decodeHtmlEntities (escapeHtml s) = s)
  /\ decodeHtmlEntities (escapeHtml (lit "&lt;")) = lit "<".
Proof.
  split; [|vm_compute; reflexivity].
  intros s Hs. rewrite escapeHtml_chars.
  rewrite (flat_map_ext escapeChar (pieceOf [])) by done.
  rewrite decode_escaped_pieces by done.
  induction Hs as [|c s Hc _ IH]; [reflexivity|].
  cbn [flat_map]. rewrite IH. unfold pieceOf, escapeChar.
  case_bool_decide; [reflexivity|].
  rewrite !(proj2 (Z.eqb_neq c _)) by set_solver. reflexivity.
Qed.

(** A takeaway with quotes and angle brackets. *)
Lemma decode_escape_round_trip_witness :
  decodeHtmlEntities (escapeHtml (lit "'A320neo' <grounded> 3 > 2"))
  = lit "'A320neo' <grounded> 3 > 2".
Proof.
  apply decode_escape_round_trip. by vm_compute; repeat constructor.
Defined.

(** ** Takeaways and the output of a run *)

Lemma trimStart_spaces s : forallb isSpace s = true -> trimStart s = [].
Proof.
  induction s as [|c s IH]; [done|]. simpl.
  intros [-> H]%andb_true_iff. by apply IH.
Qed.

(** X16.  With an API key and a reply that carries a non-empty text,
    [generateTakeaway] returns that text trimmed and touches nothing else.
    The text is not looked at further: a reply of white space only gives an
    empty takeaway, not the sentence of the rule cascade. *)
Theorem generateTakeaway_uses_reply :
  forall lower key reply a d s,
    truthyString key = true -> replyText reply = Some s -> s <> [] ->
    generateTakeaway lower key reply a d = (Returned (trim s), d)
    /\ (forallb isSpace s = true ->
        generateTakeaway lower key reply a d = (Returned [], d)).
Proof.
  intros lower key reply a d s Hkey Hreply Hs.
  rewrite generateTakeaway_run, Hkey, Hreply.
  destruct s as [|c s]; [done|]. split; [reflexivity|].
  intros Hsp. unfold trim. by rewrite (trimStart_spaces _ Hsp).
Qed.

(** A reply with a padded sentence, and a reply of a line break. *)
Lemma generateTakeaway_uses_reply_witness :
  let answer t :=
    Returned {| ok := true; status := 200; body_text := Returned [];
                body_json := Returned (JObj [(lit "candidates",
                  JArr [JObj [(lit "content",
                    JObj [(lit "parts",
                      JArr [JObj [(lit "text", JStr t)]])])]])]) |} in
  generateTakeaway asciiLower (Some (lit "key"))
    (answer (lit " Fleet renewal accelerates. ")) (feedArticle "r1" 1) Absent
  = (Returned (lit "Fleet renewal accelerates."), Absent)
  /\ generateTakeaway asciiLower (Some (lit "key")) (answer [10%Z])
       (feedArticle "r1" 1) Absent
     = (Returned [], Absent).
Proof.
  intros answer. split.
  - apply (generateTakeaway_uses_reply asciiLower (Some (lit "key"))
             (answer (lit " Fleet renewal accelerates. ")) (feedArticle "r1" 1)
             Absent (lit " Fleet renewal accelerates. ")); done.
  - apply (generateTakeaway_uses_reply asciiLower (Some (lit "key"))
             (answer [10%Z]) (feedArticle "r1" 1) Absent [10%Z]); done.
Defined.



